(* ===================================================================== *)
(* sqlx-prepare.py: regeneration of the offline query-metadata cache     *)
(*                                                                       *)
(* The script is straight-line glue: two subprocess invocations of the   *)
(* build tool, a handful of directory operations and two assignments to  *)
(* os.environ.  It is embedded as a list of statements over a process    *)
(* state made of a directory tree, the process environment and the log   *)
(* of spawned child processes.  The build tool is a parameter.           *)
(* ===================================================================== *)

From stdpp Require Import gmap strings list fin_maps.
From Stdlib Require Import Strings.Byte Strings.Ascii ZArith.

Set Default Proof Using "Type".

(* --------------------------------------------------------------------- *)
(* Directory tree                                                        *)
(* --------------------------------------------------------------------- *)

(* A node of the tree rooted at the working directory.  A directory      *)
(* carries the one permission the script can trip over: whether entries  *)
(* may be created in it or removed from it.                              *)
#[warnings="-register-all"]
Inductive node :=
| File (data : list byte)
| Dir (writable : bool) (entries : gmap string node).

Definition path := list string.

(* The errors of the OSError family that the operations below raise.     *)
Inductive OSError :=
| FileExistsError
| FileNotFoundError
| NotADirectoryError
| PermissionError
| OSError_errno (errno : string).

(* Components of a slash-separated name.  The tree models what lies      *)
(* below the working directory, so this reading is meant for relative    *)
(* names that stay below it, as the three names of the script do: empty  *)
(* components and "." are dropped; the empty name, absolute names and    *)
(* ".." are outside the model.                                           *)
Fixpoint components (acc : string) (s : string) : list string :=
  match s with
  | EmptyString => [acc]
  | String c s' =>
      if Ascii.eqb c "/"%char then acc :: components EmptyString s'
      else components (acc +:+ String c EmptyString) s'
  end.

Definition path_of (s : string) : path :=
  filter (λ x, x ≠ EmptyString ∧ x ≠ ".") (components EmptyString s).

(* Path resolution from the working directory. *)
Fixpoint resolve (p : path) (n : node) : option node :=
  match p with
  | [] => Some n
  | x :: p' =>
      match n with
      | File _ => None
      | Dir _ es => match es !! x with Some c => resolve p' c | None => None end
      end
  end.

(* The directory that holds (or would hold) the last component of p:     *)
(* its write permission, or the error met while walking to it.           *)
Fixpoint resolve_parent (p : path) (n : node) : OSError + bool :=
  match p with
  | [] => inl (OSError_errno "EINVAL")
  | x :: p' =>
      match n with
      | File _ => inl NotADirectoryError
      | Dir w es =>
          match p' with
          | [] => inr w
          | _ => match es !! x with
                 | Some c => resolve_parent p' c
                 | None => inl FileNotFoundError
                 end
          end
      end
  end.

(* Rewrite the entry named by p: f receives what is there and returns    *)
(* what shall be there.  Nothing changes when the parent is missing.     *)
Fixpoint fs_update (f : option node → option node) (p : path) (n : node) : node :=
  match p with
  | [] => default n (f (Some n))
  | x :: p' =>
      match n with
      | File _ => n
      | Dir w es =>
          match p' with
          | [] => Dir w (partial_alter f x es)
          | _ => Dir w (alter (fs_update f p') x es)
          end
      end
  end.

Definition is_dir (o : option node) : bool :=
  match o with Some (Dir _ _) => true | _ => false end.

(* rmdir succeeds on a directory without entries. *)
Definition removable (n : node) : bool :=
  match n with File _ => true | Dir _ es => bool_decide (es = ∅) end.

(* os.mkdir(p): the new directory is empty and writable. *)
Definition mkdir_node (p : path) (fs : node) : OSError + node :=
  match resolve p fs with
  | Some _ => inl FileExistsError
  | None =>
      match resolve_parent p fs with
      | inl e => inl e
      | inr false => inl PermissionError
      | inr true => inr (fs_update (λ _, Some (Dir true ∅)) p fs)
      end
  end.

(* The proper, non-empty prefixes of p, shortest first. *)
Definition ancestors (p : path) : list path :=
  (λ k, take k p) <$> seq 1 (length p - 1).

Definition make_missing (r : OSError + node) (q : path) : OSError + node :=
  match r with
  | inl e => inl e
  | inr fs => match resolve q fs with
              | Some _ => inr fs
              | None => mkdir_node q fs
              end
  end.

(* os.makedirs(p, exist_ok): missing ancestors are created first; the    *)
(* error of the final mkdir is swallowed when exist_ok is set and p is   *)
(* a directory.                                                          *)
Definition makedirs_node (exist_ok : bool) (p : path) (fs : node) : OSError + node :=
  match foldl make_missing (inr fs) (ancestors p) with
  | inl e => inl e
  | inr fs1 =>
      match mkdir_node p fs1 with
      | inr fs2 => inr fs2
      | inl e => if exist_ok && is_dir (resolve p fs1) then inr fs1 else inl e
      end
  end.

(* What is left of a directory after shutil.rmtree has tried to delete   *)
(* everything inside it, carrying on after each failure: an entry goes   *)
(* away when its directory is writable and, for a subdirectory, when the *)
(* subdirectory could be emptied.                                        *)
Fixpoint purge (n : node) : node :=
  match n with
  | File d => File d
  | Dir w es =>
      Dir w (omap (λ c, let c' := purge c in
                        if w && removable c' then None else Some c') es)
  end.

Definition rmdir_errors (w : bool) (n : node) : list OSError :=
  if negb w then [PermissionError]
  else if removable n then [] else [OSError_errno "ENOTEMPTY"].

(* The errors handed to rmtree's error handler during that walk. *)
Fixpoint purge_errors (n : node) : list OSError :=
  match n with
  | File _ => [NotADirectoryError]
  | Dir w es =>
      map_fold (λ _ c acc,
                  match c with
                  | File _ => if w then [] else [PermissionError]
                  | Dir _ _ => purge_errors c ++ rmdir_errors w (purge c)
                  end ++ acc) [] es
  end.

(* shutil.rmtree(p) with an error handler that records and continues:    *)
(* the resulting tree and the errors the handler received.               *)
Definition rmtree_node (p : path) (fs : node) : node * list OSError :=
  match resolve p fs with
  | None =>
      (fs, [match resolve_parent p fs with
            | inl NotADirectoryError => NotADirectoryError
            | _ => FileNotFoundError
            end])
  | Some (File _) => (fs, [NotADirectoryError; NotADirectoryError])
  | Some (Dir w es) =>
      let d' := purge (Dir w es) in
      let errs := purge_errors (Dir w es) in
      match resolve_parent p fs with
      | inr true =>
          if removable d' then (fs_update (λ _, None) p fs, errs)
          else (fs_update (λ _, Some d') p fs, errs ++ [OSError_errno "ENOTEMPTY"])
      | inr false => (fs_update (λ _, Some d') p fs, errs ++ [PermissionError])
      | inl e => (fs_update (λ _, Some d') p fs, errs ++ [e])
      end
  end.

(* shutil.copytree(src, dst) with its defaults: src must be a directory, *)
(* dst must not exist and is created (with missing ancestors); the copy  *)
(* carries the contents and the mode of src.                             *)
Definition copytree_node (src dst : path) (fs : node) : OSError + node :=
  match resolve src fs with
  | None => inl FileNotFoundError
  | Some (File _) => inl NotADirectoryError
  | Some (Dir w es) =>
      match makedirs_node false dst fs with
      | inl e => inl e
      | inr fs1 => inr (fs_update (λ _, Some (Dir w es)) dst fs1)
      end
  end.

(* --------------------------------------------------------------------- *)
(* Process state and statements                                          *)
(* --------------------------------------------------------------------- *)

(* The build tool as the script sees it: given the argument vector, the  *)
(* environment the child inherits and the tree, it either cannot be      *)
(* started (None) or exits with a return code and leaves a tree.         *)
Definition tool := list string → gmap string string → node → option (Z * node).

(* The script's process: the tree below its working directory, its       *)
(* os.environ, and the calls of subprocess.run made so far, each with    *)
(* the environment handed to the child.                                  *)
Record process := Process {
  fs : node;
  environ : gmap string string;
  spawned : list (list string * gmap string string)
}.

Inductive result (A : Type) :=
| Ok (a : A)
| Raise (e : OSError).
Arguments Ok {A} a.
Arguments Raise {A} e.

Definition M (A : Type) := process → result A * process.

Definition ret {A} (a : A) : M A := λ s, (Ok a, s).

Definition bind {A B} (m : M A) (k : A → M B) : M B :=
  λ s, match m s with
       | (Ok a, s') => k a s'
       | (Raise e, s') => (Raise e, s')
       end.

(* An expression statement: the value is computed and dropped. *)
Definition discard {A} (m : M A) : M unit := bind m (λ _, ret tt).

(* A module body: statements in order, stopping at the first exception. *)
Fixpoint exec (stmts : list (M unit)) : M unit :=
  match stmts with
  | [] => ret tt
  | m :: rest => bind m (λ _, exec rest)
  end.

(* Exit status of the interpreter: 1 after an uncaught exception. *)
Definition exit_status (r : result unit) : Z :=
  match r with Ok _ => 0 | Raise _ => 1 end.

Definition lift_fs (op : node → OSError + node) : M unit :=
  λ s, match op (fs s) with
       | inr fs' => (Ok tt, Process fs' (environ s) (spawned s))
       | inl e => (Raise e, s)
       end.

(* subprocess.run(argv) without check=True: the child inherits           *)
(* os.environ; the return code comes back in the CompletedProcess and no *)
(* exception is raised for it.  A tool that cannot be started raises an  *)
(* OSError: FileNotFoundError when there is no such program, which is    *)
(* the one kept here (a program that is not executable raises            *)
(* PermissionError instead; nothing below depends on the kind).          *)
Definition subprocess_run (cargo : tool) (argv : list string) : M Z :=
  λ s,
    let s' := Process (fs s) (environ s) (spawned s ++ [(argv, environ s)]) in
    match cargo argv (environ s) (fs s) with
    | None => (Raise FileNotFoundError, s')
    | Some (returncode, fs') => (Ok returncode, Process fs' (environ s) (spawned s'))
    end.

Definition os_makedirs_exist_ok (name : string) : M unit :=
  lift_fs (makedirs_node true (path_of name)).

Definition shutil_rmtree_ignore_errors (name : string) : M unit :=
  λ s, (Ok tt, Process (rmtree_node (path_of name) (fs s)).1 (environ s) (spawned s)).

Definition os_mkdir (name : string) : M unit :=
  lift_fs (mkdir_node (path_of name)).

Definition environ_setitem (key value : string) : M unit :=
  λ s, (Ok tt, Process (fs s) (<[key := value]> (environ s)) (spawned s)).

Definition shutil_copytree (src dst : string) : M unit :=
  lift_fs (copytree_node (path_of src) (path_of dst)).

(* --------------------------------------------------------------------- *)
(* The script                                                            *)
(* --------------------------------------------------------------------- *)

Definition TARGET_DIR : string := "target".
Definition SQLX_BUILD_DIR : string := "target/sqlx".
Definition SQLX_PREPARE_DIR : string := ".sqlx".

Definition CARGO_CLEAN : list string := ["cargo"; "clean"].
Definition CARGO_CHECK : list string := ["cargo"; "check"; "--workspace"].

Definition script (cargo : tool) : list (M unit) :=
  [ discard (subprocess_run cargo CARGO_CLEAN);
    os_makedirs_exist_ok TARGET_DIR;
    shutil_rmtree_ignore_errors SQLX_BUILD_DIR;
    shutil_rmtree_ignore_errors SQLX_PREPARE_DIR;
    os_mkdir SQLX_BUILD_DIR;
    environ_setitem "SQLX_OFFLINE" "false";
    environ_setitem "SQLX_OFFLINE_DIR" SQLX_BUILD_DIR;
    discard (subprocess_run cargo CARGO_CHECK);
    shutil_copytree SQLX_BUILD_DIR SQLX_PREPARE_DIR ].

Definition main (cargo : tool) : M unit := exec (script cargo).

(* The environment of the script's process once both assignments are     *)
(* made.                                                                 *)
Definition check_environ (env : gmap string string) : gmap string string :=
  <["SQLX_OFFLINE_DIR" := SQLX_BUILD_DIR]> (<["SQLX_OFFLINE" := "false"]> env).

(* --------------------------------------------------------------------- *)
(* A stand-in for the build tool and some workspaces, for evaluation     *)
(* --------------------------------------------------------------------- *)

(* clean exits with clean_code and, when wipe is set, deletes the whole  *)
(* top-level output directory; check exits with check_code and, when run *)
(* online with a cache directory that exists, fills that directory with  *)
(* the given query files.                                                *)
Definition stub_cargo (wipe : bool) (queries : gmap string node)
    (clean_code check_code : Z) : tool :=
  λ argv env tree,
    if decide (argv = CARGO_CLEAN) then
      Some (clean_code,
            if wipe then fs_update (λ _, None) (path_of TARGET_DIR) tree else tree)
    else if decide (env !! "SQLX_OFFLINE" = Some "false") then
      match env !! "SQLX_OFFLINE_DIR" with
      | Some dir =>
          match resolve (path_of dir) tree with
          | Some (Dir w _) =>
              Some (check_code, fs_update (λ _, Some (Dir w queries)) (path_of dir) tree)
          | _ => Some (check_code, tree)
          end
      | None => Some (check_code, tree)
      end
    else Some (check_code, tree).

(* A build tool that is not installed. *)
Definition missing_cargo : tool := λ _ _ _, None.

Definition json_a : list byte := [x7b; x7d].
Definition json_b : list byte := [x5b; x5d].

Definition two_queries : gmap string node :=
  <["query-1.json" := File json_a]> (<["query-2.json" := File json_b]> ∅).

Definition sources : gmap string node :=
  <["Cargo.toml" := File [x5b]]> ∅.

(* No target, no target/sqlx, no .sqlx. *)
Definition fresh_workspace : node := Dir true sources.

(* Left-overs of an earlier run, and an unrelated file under target. *)
Definition stale_workspace : node :=
  Dir true
    (<["target" := Dir true (<["notes.txt" := File json_b]>
                             (<["sqlx" := Dir true (<["old.json" := File json_a]> ∅)]> ∅))]>
     (<[".sqlx" := Dir true (<["stale.json" := File json_a]> ∅)]> sources)).

(* The prepared directory holds a read-only subdirectory with a file. *)
Definition locked_workspace : node :=
  Dir true
    (<[".sqlx" := Dir true (<["keep" := Dir false (<["stale.json" := File json_a]> ∅)]> ∅)]>
     sources).

Definition shell_environ : gmap string string :=
  <["PATH" := "/usr/bin"]> ∅.

Definition start (tree : node) : process := Process tree shell_environ [].

(* --------------------------------------------------------------------- *)
(* Vocabulary of the statements                                          *)
(* --------------------------------------------------------------------- *)

(* The run stops at statement k (counted from 0) with exception e, in    *)
(* state s': the statements before it completed and statement k raised.  *)
Definition aborts_at (stmts : list (M unit)) (k : nat) (s0 : process)
    (e : OSError) (s' : process) : Prop :=
  ∃ m sk, stmts !! k = Some m ∧
          exec (take k stmts) s0 = (Ok tt, sk) ∧
          m sk = (Raise e, s').

(* Every regular file of t is still there, unchanged, in t'. *)
Definition keeps_file (q : path) (data : list byte) (t t' : node) : Prop :=
  resolve q t = Some (File data) → resolve q t' = Some (File data).

(* A check that always writes the same cache: one query file and a       *)
(* read-only directory holding another.                                  *)
Definition readonly_queries : gmap string node :=
  <["a.json" := File json_a]>
    (<["locked" := Dir false (<["q.json" := File json_b]> ∅)]> ∅).

Definition readonly_cargo : tool := stub_cargo true readonly_queries 0 0.

(* A check whose output depends on the tree it finds: it writes a lock   *)
(* file next to the sources, and finds the two queries only when the     *)
(* lock file was already there.                                          *)
Definition lockfile_cargo : tool :=
  λ argv env tree,
    if decide (argv = CARGO_CLEAN) then
      Some (0%Z, fs_update (λ _, None) (path_of TARGET_DIR) tree)
    else
      match resolve (path_of SQLX_BUILD_DIR) tree with
      | Some (Dir w _) =>
          let queries :=
            match resolve ["Cargo.lock"] tree with
            | Some (File _) => two_queries
            | _ => ∅
            end in
          Some (0%Z,
                fs_update (λ _, Some (File json_b)) ["Cargo.lock"]
                  (fs_update (λ _, Some (Dir w queries)) (path_of SQLX_BUILD_DIR) tree))
      | _ => Some (0%Z, tree)
      end.

(* The stand-in with a wiping clean, two query files and zero exit codes. *)
Definition demo_cargo : tool := stub_cargo true two_queries 0 0.

(* The same tool, but both subprocesses exit with a failure code. *)
Definition failing_cargo : tool := stub_cargo true two_queries 101 101.

(* The name of the top-level output directory is taken by a regular file. *)
Definition blocked_workspace : node :=
  Dir true (<["target" := File json_a]> sources).

(* A clean that leaves the output directory alone. *)
Definition gentle_cargo : tool := stub_cargo false two_queries 0 0.

(* A build that finds no queries. *)
Definition empty_cargo : tool := stub_cargo true ∅ 0 0.

(* The stale workspace after the clean, the creation of the top-level    *)
(* directory and the two removals.                                       *)
Definition after_removals : process :=
  (exec (take 4 (script demo_cargo)) (start stale_workspace)).2.

(* --------------------------------------------------------------------- *)
(* Vocabulary of the tree                                                *)
(* --------------------------------------------------------------------- *)

(* Every directory of the tree is writable. *)
Fixpoint all_writable (n : node) : bool :=
  match n with
  | File _ => true
  | Dir w es => w && map_fold (λ _ c acc, all_writable c && acc) true es
  end.

(* Number of nodes, the measure for induction on trees. *)
Fixpoint node_size (n : node) : nat :=
  match n with
  | File _ => 1
  | Dir _ es => S (map_fold (λ _ c acc, node_size c + acc) 0 es)
  end.

Definition is_file (o : option node) : bool :=
  match o with Some (File _) => true | _ => false end.

(* A check that does its job on a workspace whose working directory is   *)
(* writable: it runs and exits, leaves the cache directory a directory,  *)
(* does not create the prepared directory and leaves the working         *)
(* directory writable.                                                   *)
Definition well_behaved_check (cargo : tool) (env : gmap string string) : Prop :=
  ∀ es,
    is_dir (resolve (path_of SQLX_BUILD_DIR) (Dir true es)) = true →
    resolve (path_of SQLX_PREPARE_DIR) (Dir true es) = None →
    ∃ c es',
      cargo CARGO_CHECK env (Dir true es) = Some (c, Dir true es') ∧
      is_dir (resolve (path_of SQLX_BUILD_DIR) (Dir true es')) = true ∧
      resolve (path_of SQLX_PREPARE_DIR) (Dir true es') = None.

(* A workspace in which every directory is writable and a read-only one. *)
Definition readonly_target_workspace : node :=
  Dir true (<["target" := Dir false ∅]> sources).

(* The cache path is taken by a regular file. *)
Definition file_cache_workspace : node :=
  Dir true (<["target" := Dir true (<["sqlx" := File json_a]> ∅)]> sources).

(* ===================================================================== *)
(* Properties of the directory tree                                      *)
(* ===================================================================== *)

Section tree.
Implicit Types (p q rel : path) (n d : node) (f : option node → option node).

Lemma resolve_app p rel n :
  resolve (p ++ rel) n = resolve p n ≫= resolve rel.
Proof.
  revert n. induction p as [|x p IH]; intros n; simpl; [done|].
  destruct n as [|w es]; [done|]. destruct (es !! x); [apply IH|done].
Qed.

Lemma resolve_prefix_is_Some p rel n :
  is_Some (resolve (p ++ rel) n) → is_Some (resolve p n).
Proof.
  rewrite resolve_app. destruct (resolve p n); [eauto|]. by intros [? ?].
Qed.

Lemma resolve_parent_is_Some p n :
  p ≠ [] → is_Some (resolve p n) → ∃ w, resolve_parent p n = inr w.
Proof.
  revert n. induction p as [|x p IH]; intros n Hp [c Hc]; [done|].
  simpl in *. destruct n as [|w es]; [done|].
  destruct p as [|y p]; [by eexists|].
  destruct (es !! x) as [c'|]; [|done]. apply IH; [done|by eexists].
Qed.

Lemma resolve_update_eq f p n w :
  resolve_parent p n = inr w →
  resolve p (fs_update f p n) = f (resolve p n).
Proof.
  revert n. induction p as [|x p IH]; intros n Hpar; [done|].
  simpl in Hpar. destruct n as [|w' es]; [done|].
  destruct p as [|y p].
  - simpl. rewrite lookup_partial_alter_eq.
    destruct (es !! x); by destruct (f _).
  - destruct (es !! x) as [c|] eqn:Hx; [|done].
    change (resolve (x :: y :: p) (fs_update f (x :: y :: p) (Dir w' es)))
      with (match alter (fs_update f (y :: p)) x es !! x with
            | Some c' => resolve (y :: p) c'
            | None => None
            end).
    rewrite lookup_alter_eq, Hx. cbn [fmap option_fmap option_map].
    rewrite (IH c Hpar). cbn [resolve]. by rewrite Hx.
Qed.

Lemma resolve_update_under p rel n d w :
  resolve_parent p n = inr w →
  resolve (p ++ rel) (fs_update (λ _, Some d) p n) = resolve rel d.
Proof.
  intros Hpar. by rewrite resolve_app, (resolve_update_eq _ _ _ _ Hpar).
Qed.

(* An update at p is invisible at every q that is neither below p nor on *)
(* the way to p.                                                         *)
Lemma resolve_update_apart f p q n :
  ¬ p `prefix_of` q → ¬ q `prefix_of` p →
  resolve q (fs_update f p n) = resolve q n.
Proof.
  revert q n. induction p as [|x p IH]; intros q n Hpq Hqp.
  { destruct Hpq. apply prefix_nil. }
  destruct q as [|y q]; [destruct Hqp; apply prefix_nil|].
  destruct n as [|w es]; [done|].
  destruct (decide (x = y)) as [->|Hxy].
  - assert (¬ p `prefix_of` q) as Hpq' by (intros ?; apply Hpq; by apply prefix_cons).
    assert (¬ q `prefix_of` p) as Hqp' by (intros ?; apply Hqp; by apply prefix_cons).
    destruct p as [|z p]; [destruct Hpq'; apply prefix_nil|].
    change (match alter (fs_update f (z :: p)) y es !! y with
            | Some c' => resolve q c'
            | None => None
            end = resolve (y :: q) (Dir w es)).
    rewrite lookup_alter_eq. cbn [resolve].
    destruct (es !! y) as [c|]; [|done]. cbn [fmap option_fmap option_map].
    by apply IH.
  - destruct p as [|z p]; cbn [fs_update resolve].
    + by rewrite lookup_partial_alter_ne.
    + by rewrite lookup_alter_ne.
Qed.

(* A regular file is never on the way to another path, so it only has to *)
(* lie outside the updated subtree.                                      *)
Lemma resolve_update_file f p q n data :
  ¬ p `prefix_of` q →
  resolve q n = Some (File data) →
  resolve q (fs_update f p n) = Some (File data).
Proof.
  revert q n. induction p as [|x p IH]; intros q n Hpq Hq.
  { destruct Hpq. apply prefix_nil. }
  destruct q as [|y q]; [simpl in Hq; by simplify_eq|].
  destruct n as [|w es]; [done|]. simpl in Hq.
  destruct (decide (x = y)) as [->|Hxy].
  - assert (¬ p `prefix_of` q) as Hpq' by (intros ?; apply Hpq; by apply prefix_cons).
    destruct p as [|z p]; [destruct Hpq'; apply prefix_nil|].
    change (match alter (fs_update f (z :: p)) y es !! y with
            | Some c' => resolve q c'
            | None => None
            end = Some (File data)).
    rewrite lookup_alter_eq.
    destruct (es !! y) as [c|]; [|done]. cbn [fmap option_fmap option_map].
    by apply IH.
  - destruct p as [|z p]; cbn [fs_update resolve].
    + by rewrite lookup_partial_alter_ne.
    + by rewrite lookup_alter_ne.
Qed.

Lemma resolve_None_not_prefix p q n :
  resolve p n = None → is_Some (resolve q n) → ¬ p `prefix_of` q.
Proof.
  intros Hp Hq [k ->]. apply resolve_prefix_is_Some in Hq.
  rewrite Hp in Hq. by destruct Hq.
Qed.

End tree.

(* ===================================================================== *)
(* Properties of the directory operations                                *)
(* ===================================================================== *)

Section operations.
Implicit Types (p q rel : path) (n t : node).

Lemma path_of_target : path_of TARGET_DIR = ["target"].
Proof. reflexivity. Qed.

Lemma path_of_build : path_of SQLX_BUILD_DIR = ["target"; "sqlx"].
Proof. reflexivity. Qed.

Lemma path_of_prepare : path_of SQLX_PREPARE_DIR = [".sqlx"].
Proof. reflexivity. Qed.

Lemma not_prefix_head (x y : string) p q : x ≠ y → ¬ (x :: p) `prefix_of` (y :: q).
Proof. intros Hxy Hpre. by apply prefix_cons_inv_1 in Hpre. Qed.

Lemma keeps_file_refl q data t : keeps_file q data t t.
Proof. by intros ?. Qed.

Lemma keeps_file_trans q data t1 t2 t3 :
  keeps_file q data t1 t2 → keeps_file q data t2 t3 → keeps_file q data t1 t3.
Proof. unfold keeps_file. auto. Qed.

Lemma mkdir_node_inv p t t' :
  mkdir_node p t = inr t' →
  resolve p t = None ∧ resolve_parent p t = inr true ∧
  t' = fs_update (λ _, Some (Dir true ∅)) p t.
Proof.
  unfold mkdir_node. destruct (resolve p t); [done|].
  destruct (resolve_parent p t) as [e|[]]; [done| |done].
  intros [= <-]. done.
Qed.

Lemma mkdir_node_resolve p t t' :
  mkdir_node p t = inr t' → resolve p t' = Some (Dir true ∅).
Proof.
  intros (_ & Hpar & ->)%mkdir_node_inv. by rewrite (resolve_update_eq _ _ _ _ Hpar).
Qed.

Lemma mkdir_node_keeps p q data t t' :
  mkdir_node p t = inr t' → keeps_file q data t t'.
Proof.
  intros (Hnone & _ & ->)%mkdir_node_inv Hq.
  apply resolve_update_file; [|done].
  eapply resolve_None_not_prefix; [done|by eexists].
Qed.

Lemma resolve_parent_not_exists p t : resolve_parent p t ≠ inl FileExistsError.
Proof.
  revert t. induction p as [|x p IH]; intros t; simpl; [done|].
  destruct t as [|w es]; [done|]. destruct p; [done|].
  destruct (es !! x); [apply IH|done].
Qed.

Lemma mkdir_node_not_exists p t :
  resolve p t = None → mkdir_node p t ≠ inl FileExistsError.
Proof.
  intros Hnone. unfold mkdir_node. rewrite Hnone.
  destruct (resolve_parent p t) as [e|[]] eqn:Hpar; [|done..].
  intros [= ->]. by apply resolve_parent_not_exists in Hpar.
Qed.

Lemma foldl_make_missing_inl e l : foldl make_missing (inl e) l = inl e.
Proof. by induction l. Qed.

Lemma foldl_make_missing_keeps q data l t t' :
  foldl make_missing (inr t) l = inr t' → keeps_file q data t t'.
Proof.
  revert t. induction l as [|a l IH]; intros t; simpl.
  - intros [= <-]. apply keeps_file_refl.
  - destruct (resolve a t) eqn:Ha; [apply IH|].
    destruct (mkdir_node a t) as [e|t1] eqn:Hmk.
    + by rewrite foldl_make_missing_inl.
    + intros Hfold. eapply keeps_file_trans; [by eapply mkdir_node_keeps|by apply IH].
Qed.

Lemma makedirs_node_keeps ok p q data t t' :
  makedirs_node ok p t = inr t' → keeps_file q data t t'.
Proof.
  unfold makedirs_node.
  destruct (foldl make_missing (inr t) (ancestors p)) as [e|t1] eqn:Hfold; [done|].
  apply (foldl_make_missing_keeps q data) in Hfold.
  destruct (mkdir_node p t1) as [e|t2] eqn:Hmk.
  - destruct (ok && is_dir (resolve p t1)); [|done]. by intros [= <-].
  - intros [= <-]. eapply keeps_file_trans; [done|by eapply mkdir_node_keeps].
Qed.

Lemma makedirs_node_fresh p t t' :
  makedirs_node false p t = inr t' → resolve p t' = Some (Dir true ∅).
Proof.
  unfold makedirs_node.
  destruct (foldl make_missing (inr t) (ancestors p)) as [e|t1]; [done|].
  destruct (mkdir_node p t1) as [e|t2] eqn:Hmk; [done|].
  intros [= <-]. by eapply mkdir_node_resolve.
Qed.

Lemma rmtree_node_keeps p q data t :
  ¬ p `prefix_of` q → keeps_file q data t (rmtree_node p t).1.
Proof.
  intros Hpq Hq. unfold rmtree_node.
  destruct (resolve p t) as [[d|w es]|]; [done| |done].
  destruct (resolve_parent p t) as [e|[]];
    [|destruct (removable (purge (Dir w es)))|];
    cbn [fst]; by apply resolve_update_file.
Qed.

Lemma copytree_node_inv src dst t t' :
  copytree_node src dst t = inr t' →
  ∃ w es t1, resolve src t = Some (Dir w es) ∧
             makedirs_node false dst t = inr t1 ∧
             t' = fs_update (λ _, Some (Dir w es)) dst t1.
Proof.
  unfold copytree_node. destruct (resolve src t) as [[d|w es]|]; [done| |done].
  destruct (makedirs_node false dst t) as [e|t1]; [done|].
  intros [= <-]. by exists w, es, t1.
Qed.

Lemma copytree_node_keeps src dst q data t t' :
  copytree_node src dst t = inr t' → keeps_file q data t t'.
Proof.
  intros (w & es & t1 & _ & Hmk & ->)%copytree_node_inv Hq.
  pose proof (makedirs_node_keeps _ _ q data _ _ Hmk Hq) as Hq1.
  apply resolve_update_file; [|done].
  intros [k ->]. apply makedirs_node_fresh in Hmk.
  rewrite resolve_app, Hmk in Hq1. destruct k; simpl in Hq1; [done|].
  by rewrite lookup_empty in Hq1.
Qed.

(* The destination is an exact copy of the source directory. *)
Lemma copytree_node_copy src dst rel t t' :
  copytree_node src dst t = inr t' →
  ∃ d, resolve src t = Some d ∧ is_dir (Some d) = true ∧
       resolve (dst ++ rel) t' = resolve rel d.
Proof.
  intros (w & es & t1 & Hsrc & Hmk & ->)%copytree_node_inv.
  exists (Dir w es). split; [done|]. split; [done|].
  apply makedirs_node_fresh in Hmk.
  destruct dst as [|x dst].
  - simpl. done.
  - destruct (resolve_parent_is_Some (x :: dst) t1) as [w' Hpar]; [done|by eexists|].
    by eapply resolve_update_under.
Qed.

End operations.

(* ===================================================================== *)
(* Properties of statement sequencing                                    *)
(* ===================================================================== *)

Section sequencing.
Implicit Types (m : M unit) (stmts : list (M unit)) (s : process).

Lemma exec_cons m stmts s :
  exec (m :: stmts) s =
  match m s with
  | (Ok _, s') => exec stmts s'
  | (Raise e, s') => (Raise e, s')
  end.
Proof. reflexivity. Qed.

Lemma exec_app stmts1 stmts2 s :
  exec (stmts1 ++ stmts2) s =
  match exec stmts1 s with
  | (Ok _, s') => exec stmts2 s'
  | (Raise e, s') => (Raise e, s')
  end.
Proof.
  revert s. induction stmts1 as [|m stmts1 IH]; intros s; [done|].
  rewrite <-app_comm_cons, !exec_cons. destruct (m s) as [[[]|e] s1]; [apply IH|done].
Qed.

Lemma exec_Ok_split k stmts s s' :
  exec stmts s = (Ok tt, s') →
  ∃ sk, exec (take k stmts) s = (Ok tt, sk) ∧ exec (drop k stmts) sk = (Ok tt, s').
Proof.
  rewrite <-(take_drop k stmts) at 1. rewrite exec_app.
  destruct (exec (take k stmts) s) as [[[]|e] sk]; [|done]. intros Hrest. by exists sk.
Qed.

Lemma aborts_at_exec stmts k s0 e s' :
  aborts_at stmts k s0 e s' → exec stmts s0 = (Raise e, s').
Proof.
  intros (m & sk & Hm & Hpre & Hraise).
  rewrite <-(take_drop_middle stmts k m Hm), exec_app, Hpre, exec_cons, Hraise. done.
Qed.

Lemma exec_outcome stmts s0 :
  (∃ s', exec stmts s0 = (Ok tt, s')) ∨ (∃ k e s', aborts_at stmts k s0 e s').
Proof.
  revert s0. induction stmts as [|m stmts IH]; intros s0; [left; by eexists|].
  destruct (m s0) as [[[]|e] s1] eqn:Hm.
  - destruct (IH s1) as [[s' Hs']|(k & e & s' & m' & sk & Hk & Hpre & Hraise)].
    + left. exists s'. by rewrite exec_cons, Hm.
    + right. exists (S k), e, s', m', sk. split_and!; [done| |done].
      cbn [take]. by rewrite exec_cons, Hm.
  - right. exists 0, e, s1, m, s0. done.
Qed.

Lemma exec_ext stmts1 stmts2 s :
  Forall2 (λ m1 m2, ∀ s, m1 s = m2 s) stmts1 stmts2 →
  exec stmts1 s = exec stmts2 s.
Proof.
  intros Hall. revert s. induction Hall as [|m1 m2 l1 l2 Hm _ IH]; intros s; [done|].
  rewrite !exec_cons, Hm. destruct (m2 s) as [[[]|e] s1]; [apply IH|done].
Qed.

Lemma lift_fs_Ok op s s' :
  lift_fs op s = (Ok tt, s') →
  ∃ t', op (fs s) = inr t' ∧ s' = Process t' (environ s) (spawned s).
Proof.
  unfold lift_fs. destruct (op (fs s)) as [e|t']; [done|]. intros [= <-]. by exists t'.
Qed.

Lemma lift_fs_Raise op s e s' :
  lift_fs op s = (Raise e, s') → op (fs s) = inl e ∧ s' = s.
Proof.
  unfold lift_fs. destruct (op (fs s)) as [e'|t']; [|done]. by intros [= <- <-].
Qed.

Lemma subprocess_statement cargo argv s :
  discard (subprocess_run cargo argv) s =
  match cargo argv (environ s) (fs s) with
  | Some (_, t') => (Ok tt, Process t' (environ s) (spawned s ++ [(argv, environ s)]))
  | None => (Raise FileNotFoundError,
             Process (fs s) (environ s) (spawned s ++ [(argv, environ s)]))
  end.
Proof.
  unfold discard, bind, subprocess_run, ret.
  by destruct (cargo argv (environ s) (fs s)) as [[c t']|].
Qed.

End sequencing.

Section statements.
Variable cargo : tool.
Implicit Types (m : M unit) (stmts : list (M unit)) (s : process).

Lemma exec_cons_Ok m stmts s s' :
  exec (m :: stmts) s = (Ok tt, s') →
  ∃ s1, m s = (Ok tt, s1) ∧ exec stmts s1 = (Ok tt, s').
Proof.
  rewrite exec_cons. destruct (m s) as [[[]|e] s1]; [|done]. intros Hrest. by exists s1.
Qed.

Lemma exec_nil_Ok s s' : exec [] s = (Ok tt, s') → s' = s.
Proof. by intros [= <-]. Qed.

Lemma subprocess_Ok argv s s' :
  discard (subprocess_run cargo argv) s = (Ok tt, s') →
  ∃ c t', cargo argv (environ s) (fs s) = Some (c, t') ∧
          s' = Process t' (environ s) (spawned s ++ [(argv, environ s)]).
Proof.
  rewrite subprocess_statement.
  destruct (cargo argv (environ s) (fs s)) as [[c t']|]; [|done].
  intros [= <-]. by exists c, t'.
Qed.

Lemma subprocess_Raise argv s e s' :
  discard (subprocess_run cargo argv) s = (Raise e, s') →
  cargo argv (environ s) (fs s) = None ∧ e = FileNotFoundError ∧
  s' = Process (fs s) (environ s) (spawned s ++ [(argv, environ s)]).
Proof.
  rewrite subprocess_statement.
  destruct (cargo argv (environ s) (fs s)) as [[c t']|]; [done|].
  by intros [= <- <-].
Qed.

Lemma makedirs_Ok name s s' :
  os_makedirs_exist_ok name s = (Ok tt, s') →
  ∃ t', makedirs_node true (path_of name) (fs s) = inr t' ∧
        s' = Process t' (environ s) (spawned s).
Proof. apply lift_fs_Ok. Qed.

Lemma mkdir_Ok name s s' :
  os_mkdir name s = (Ok tt, s') →
  ∃ t', mkdir_node (path_of name) (fs s) = inr t' ∧
        s' = Process t' (environ s) (spawned s).
Proof. apply lift_fs_Ok. Qed.

Lemma copytree_Ok src dst s s' :
  shutil_copytree src dst s = (Ok tt, s') →
  ∃ t', copytree_node (path_of src) (path_of dst) (fs s) = inr t' ∧
        s' = Process t' (environ s) (spawned s).
Proof. apply lift_fs_Ok. Qed.

Lemma rmtree_Ok name s s' :
  shutil_rmtree_ignore_errors name s = (Ok tt, s') →
  s' = Process (rmtree_node (path_of name) (fs s)).1 (environ s) (spawned s).
Proof. by intros [= <-]. Qed.

Lemma setitem_Ok key value s s' :
  environ_setitem key value s = (Ok tt, s') →
  s' = Process (fs s) (<[key := value]> (environ s)) (spawned s).
Proof. by intros [= <-]. Qed.

End statements.

Ltac inv_stmt H :=
  first
    [ apply subprocess_Ok in H as (? & ? & ? & ->)
    | apply makedirs_Ok in H as (? & ? & ->)
    | apply mkdir_Ok in H as (? & ? & ->)
    | apply copytree_Ok in H as (? & ? & ->)
    | apply rmtree_Ok in H as ->
    | apply setitem_Ok in H as -> ];
  cbn [fs environ spawned] in *.

(* Invert a run of a statement list that completed normally. *)
Ltac exec_inv H :=
  unfold script in H; cbn [take drop] in H;
  repeat
    lazymatch type of H with
    | exec (_ :: _) _ = (Ok tt, _) =>
        let s1 := fresh "s" in
        let Hm := fresh "Hm" in
        apply exec_cons_Ok in H as (s1 & Hm & H); inv_stmt Hm
    | exec [] _ = (Ok tt, _) => apply exec_nil_Ok in H
    end.

(* ===================================================================== *)
(* The script                                                            *)
(* ===================================================================== *)

Section script.
Variable cargo : tool.
Implicit Types (s : process) (rel q : path).

Lemma script_before_copy :
  take 8 (script cargo) ++
    [shutil_copytree SQLX_BUILD_DIR SQLX_PREPARE_DIR] = script cargo.
Proof. reflexivity. Qed.

Lemma copytree_node_outside src x q t t' :
  copytree_node src [x] t = inr t' →
  q ≠ [] → ¬ [x] `prefix_of` q →
  resolve q t' = resolve q t.
Proof.
  intros (w & es & t1 & _ & Hmk & ->)%copytree_node_inv Hq Hxq.
  assert (¬ q `prefix_of` [x]) as Hqx.
  { intros [k Hk]. destruct q as [|y q]; [done|]. simplify_eq/=.
    destruct q; [|done]. apply Hxq. done. }
  rewrite resolve_update_apart by done.
  unfold makedirs_node in Hmk. cbn [ancestors length Nat.sub seq fmap list_fmap foldl] in Hmk.
  destruct (mkdir_node [x] t) as [e|t2] eqn:Hmkdir; [done|].
  injection Hmk as <-. apply mkdir_node_inv in Hmkdir as (_ & _ & ->).
  by rewrite resolve_update_apart.
Qed.

Lemma copy_statement_Ok s s' :
  shutil_copytree SQLX_BUILD_DIR SQLX_PREPARE_DIR s = (Ok tt, s') →
  is_dir (resolve (path_of SQLX_BUILD_DIR) (fs s)) = true ∧
  (∀ rel, resolve (path_of SQLX_PREPARE_DIR ++ rel) (fs s') =
          resolve (path_of SQLX_BUILD_DIR ++ rel) (fs s)) ∧
  (∀ rel, resolve (path_of SQLX_BUILD_DIR ++ rel) (fs s') =
          resolve (path_of SQLX_BUILD_DIR ++ rel) (fs s)) ∧
  environ s' = environ s ∧ spawned s' = spawned s.
Proof.
  intros (t' & Hcopy & ->)%lift_fs_Ok. cbn [fs environ spawned].
  split_and!; [| | |done..].
  - destruct (copytree_node_copy _ _ [] _ _ Hcopy) as (d & -> & Hdir & _). done.
  - intros rel. destruct (copytree_node_copy _ _ rel _ _ Hcopy) as (d & Hd & _ & ->).
    by rewrite resolve_app, Hd.
  - intros rel. rewrite path_of_prepare in Hcopy.
    eapply copytree_node_outside; [done|by rewrite path_of_build|].
    rewrite path_of_build. by apply not_prefix_head.
Qed.

(** C1: when a run completes successfully, [.sqlx] is a directory and an
    exact recursive copy of [target/sqlx] as the check step left it: every
    relative path resolves under [.sqlx] to what it resolved to under
    [target/sqlx] right after the check (same files with the same bytes,
    same subdirectories, nothing else), and [target/sqlx] itself is still
    there, unchanged. *)
Theorem prepared_is_copy_of_cache s0 s :
  main cargo s0 = (Ok tt, s) →
  ∃ s8,
    exec (take 8 (script cargo)) s0 = (Ok tt, s8) ∧
    is_dir (resolve (path_of SQLX_BUILD_DIR) (fs s8)) = true ∧
    is_dir (resolve (path_of SQLX_PREPARE_DIR) (fs s)) = true ∧
    (∀ rel, resolve (path_of SQLX_PREPARE_DIR ++ rel) (fs s) =
            resolve (path_of SQLX_BUILD_DIR ++ rel) (fs s8)) ∧
    (∀ rel, resolve (path_of SQLX_BUILD_DIR ++ rel) (fs s) =
            resolve (path_of SQLX_BUILD_DIR ++ rel) (fs s8)).
Proof.
  intros Hmain. destruct (exec_Ok_split 8 _ _ _ Hmain) as (s8 & Hpre & Hcopy).
  exists s8. split; [done|].
  change (drop 8 (script cargo))
    with [shutil_copytree SQLX_BUILD_DIR SQLX_PREPARE_DIR] in Hcopy.
  rewrite exec_cons in Hcopy.
  destruct (shutil_copytree _ _ s8) as [[[]|e] s'] eqn:Hstmt; [|done].
  injection Hcopy as ->.
  apply copy_statement_Ok in Hstmt as (Hdir & Hprep & Hbuild & _).
  split_and!; [done| |done..].
  specialize (Hprep []). specialize (Hbuild []). rewrite !app_nil_r in *.
  by rewrite Hprep.
Qed.

End script.

Lemma prepared_is_copy_of_cache_witness :
  main demo_cargo (start fresh_workspace) =
    (Ok tt, (main demo_cargo (start fresh_workspace)).2) ∧
  ∃ s8,
    exec (take 8 (script demo_cargo)) (start fresh_workspace) = (Ok tt, s8) ∧
    is_dir (resolve (path_of SQLX_BUILD_DIR) (fs s8)) = true ∧
    is_dir (resolve (path_of SQLX_PREPARE_DIR)
              (fs (main demo_cargo (start fresh_workspace)).2)) = true ∧
    (∀ rel, resolve (path_of SQLX_PREPARE_DIR ++ rel)
              (fs (main demo_cargo (start fresh_workspace)).2) =
            resolve (path_of SQLX_BUILD_DIR ++ rel) (fs s8)) ∧
    (∀ rel, resolve (path_of SQLX_BUILD_DIR ++ rel)
              (fs (main demo_cargo (start fresh_workspace)).2) =
            resolve (path_of SQLX_BUILD_DIR ++ rel) (fs s8)).
Proof.
  assert (main demo_cargo (start fresh_workspace) =
          (Ok tt, (main demo_cargo (start fresh_workspace)).2))
    as Hrun by (vm_compute; reflexivity).
  split; [exact Hrun|].
  exact (prepared_is_copy_of_cache demo_cargo (start fresh_workspace) _ Hrun).
Defined.

Section environment.
Variable cargo : tool.
Implicit Types (s : process).

Lemma check_environ_offline env :
  check_environ env !! "SQLX_OFFLINE" = Some "false".
Proof. unfold check_environ. rewrite lookup_insert_ne by done. apply lookup_insert_eq. Qed.

Lemma check_environ_offline_dir env :
  check_environ env !! "SQLX_OFFLINE_DIR" = Some SQLX_BUILD_DIR.
Proof. apply lookup_insert_eq. Qed.

(* The state in which the check is spawned. *)
Lemma before_check s0 s7 :
  exec (take 7 (script cargo)) s0 = (Ok tt, s7) →
  environ s7 = check_environ (environ s0) ∧
  spawned s7 = spawned s0 ++ [(CARGO_CLEAN, environ s0)] ∧
  resolve (path_of SQLX_BUILD_DIR) (fs s7) = Some (Dir true ∅).
Proof.
  intros H. exec_inv H. subst s7. cbn [fs environ spawned].
  split_and!; [done..|]. by eapply mkdir_node_resolve.
Qed.

Lemma script_from_check :
  take 7 (script cargo) ++
    [discard (subprocess_run cargo CARGO_CHECK);
     shutil_copytree SQLX_BUILD_DIR SQLX_PREPARE_DIR] = script cargo.
Proof. reflexivity. Qed.

(* What the run looks like from the check onwards. *)
Lemma main_from_check s0 s7 :
  exec (take 7 (script cargo)) s0 = (Ok tt, s7) →
  spawned (main cargo s0).2 = spawned s7 ++ [(CARGO_CHECK, environ s7)] ∧
  environ (main cargo s0).2 = environ s7.
Proof.
  intros Hpre.
  unfold main. rewrite <-script_from_check, exec_app, Hpre, exec_cons, subprocess_statement.
  destruct (cargo CARGO_CHECK (environ s7) (fs s7)) as [[c t8]|]; [|done].
  rewrite exec_cons. unfold shutil_copytree, lift_fs. cbn [fs environ spawned].
  by destruct (copytree_node _ _ t8).
Qed.

(* A run that stops before the check: that is at the clean, at the       *)
(* creation of the top-level directory or at the creation of the cache   *)
(* directory; the process environment is still the inherited one.        *)
Lemma main_stopped_before_check s0 k e s' :
  aborts_at (take 7 (script cargo)) k s0 e s' →
  main cargo s0 = (Raise e, s') ∧
  spawned s' = spawned s0 ++ [(CARGO_CLEAN, environ s0)] ∧
  environ s' = environ s0.
Proof.
  intros Habort. split.
  { apply aborts_at_exec in Habort.
    unfold main. by rewrite <-script_from_check, exec_app, Habort. }
  destruct Habort as (m & sk & Hk & Hpre & Hraise).
  destruct k as [|[|[|[|[|[|[|k]]]]]]]; [..|done];
    injection Hk as <-; exec_inv Hpre; subst sk.
  - by apply subprocess_Raise in Hraise as (_ & _ & ->).
  - by apply lift_fs_Raise in Hraise as (_ & ->).
  - discriminate Hraise.
  - discriminate Hraise.
  - by apply lift_fs_Raise in Hraise as (_ & ->).
  - discriminate Hraise.
  - discriminate Hraise.
Qed.

(** C3: whenever the run reaches step 6, the check subprocess is spawned
    with the argument vector [cargo check --workspace] and the environment
    of the script's process at that moment, in which [SQLX_OFFLINE] is
    exactly the string [false] and [SQLX_OFFLINE_DIR] is exactly
    [target/sqlx]. *)
Theorem check_sees_offline_settings s0 s7 :
  exec (take 7 (script cargo)) s0 = (Ok tt, s7) →
  spawned (main cargo s0).2 =
    spawned s0 ++ [(CARGO_CLEAN, environ s0); (CARGO_CHECK, environ s7)] ∧
  environ s7 !! "SQLX_OFFLINE" = Some "false" ∧
  environ s7 !! "SQLX_OFFLINE_DIR" = Some SQLX_BUILD_DIR.
Proof.
  intros Hpre. pose proof (before_check _ _ Hpre) as (Henv & Hlog & _).
  pose proof (main_from_check _ _ Hpre) as [-> _].
  rewrite Hlog, <-app_assoc, Henv.
  split_and!; [done|apply check_environ_offline|apply check_environ_offline_dir].
Qed.

(** C10: the clean subprocess is the first child the script spawns and it
    receives the environment the script inherited, without the script's
    own assignments; the only other child is the check, and it is the one
    that receives the two assignments. *)
Theorem clean_sees_inherited_environ s0 :
  ∃ rest,
    spawned (main cargo s0).2 = spawned s0 ++ (CARGO_CLEAN, environ s0) :: rest ∧
    (rest = [] ∨ rest = [(CARGO_CHECK, check_environ (environ s0))]).
Proof.
  destruct (exec_outcome (take 7 (script cargo)) s0)
    as [[s7 Hpre]|(k & e & s' & Habort)].
  - exists [(CARGO_CHECK, check_environ (environ s0))]. split; [|by right].
    pose proof (before_check _ _ Hpre) as (Henv & Hlog & _).
    pose proof (main_from_check _ _ Hpre) as [-> _].
    by rewrite Hlog, <-app_assoc, Henv.
  - exists []. split; [|by left].
    apply main_stopped_before_check in Habort as (-> & Hlog & _). done.
Qed.

(** C4 (amended): the two assignments are made in the script's own process
    environment and are never undone.  Whenever the run reaches step 6,
    the check, the copy of step 7 and the end of the run all observe the
    inherited environment overwritten with [SQLX_OFFLINE = false] and
    [SQLX_OFFLINE_DIR = target/sqlx]. *)
Theorem assignments_stay_in_process_environ s0 s7 :
  exec (take 7 (script cargo)) s0 = (Ok tt, s7) →
  environ s7 = check_environ (environ s0) ∧
  (∀ s8, exec (take 8 (script cargo)) s0 = (Ok tt, s8) →
         environ s8 = check_environ (environ s0)) ∧
  environ (main cargo s0).2 = check_environ (environ s0).
Proof.
  intros Hpre. pose proof (before_check _ _ Hpre) as (Henv & _ & _).
  pose proof (main_from_check _ _ Hpre) as [_ Hend].
  split_and!; [done| |by rewrite Hend].
  intros s8 H8. exec_inv H8. by subst s8.
Qed.

End environment.

Lemma check_sees_offline_settings_witness :
  exec (take 7 (script demo_cargo)) (start stale_workspace) =
    (Ok tt, (exec (take 7 (script demo_cargo)) (start stale_workspace)).2) ∧
  spawned (main demo_cargo (start stale_workspace)).2 =
    spawned (start stale_workspace) ++
      [(CARGO_CLEAN, environ (start stale_workspace));
       (CARGO_CHECK,
        environ (exec (take 7 (script demo_cargo)) (start stale_workspace)).2)] ∧
  environ (exec (take 7 (script demo_cargo)) (start stale_workspace)).2
    !! "SQLX_OFFLINE" = Some "false" ∧
  environ (exec (take 7 (script demo_cargo)) (start stale_workspace)).2
    !! "SQLX_OFFLINE_DIR" = Some SQLX_BUILD_DIR.
Proof.
  assert (exec (take 7 (script demo_cargo)) (start stale_workspace) =
          (Ok tt, (exec (take 7 (script demo_cargo)) (start stale_workspace)).2))
    as Hrun by (vm_compute; reflexivity).
  split; [exact Hrun|].
  exact (check_sees_offline_settings demo_cargo (start stale_workspace) _ Hrun).
Defined.

Lemma assignments_stay_in_process_environ_witness :
  exec (take 7 (script demo_cargo)) (start fresh_workspace) =
    (Ok tt, (exec (take 7 (script demo_cargo)) (start fresh_workspace)).2) ∧
  environ (main demo_cargo (start fresh_workspace)).2 =
    check_environ (environ (start fresh_workspace)).
Proof.
  assert (exec (take 7 (script demo_cargo)) (start fresh_workspace) =
          (Ok tt, (exec (take 7 (script demo_cargo)) (start fresh_workspace)).2))
    as Hrun by (vm_compute; reflexivity).
  split; [exact Hrun|].
  exact (proj2 (proj2
    (assignments_stay_in_process_environ demo_cargo (start fresh_workspace) _ Hrun))).
Defined.

(* C4 as stated fails: after a successful run from an environment without
   the two variables, the process environment holds both, already when the
   copy of step 7 starts. *)
Lemma environ_left_mutated :
  (main demo_cargo (start fresh_workspace)).1 = Ok tt ∧
  environ (start fresh_workspace) !! "SQLX_OFFLINE" = None ∧
  environ (start fresh_workspace) !! "SQLX_OFFLINE_DIR" = None ∧
  (exec (take 8 (script demo_cargo)) (start fresh_workspace)).1 = Ok tt ∧
  environ (exec (take 8 (script demo_cargo)) (start fresh_workspace)).2
    !! "SQLX_OFFLINE" = Some "false" ∧
  environ (main demo_cargo (start fresh_workspace)).2
    !! "SQLX_OFFLINE" = Some "false" ∧
  environ (main demo_cargo (start fresh_workspace)).2
    !! "SQLX_OFFLINE_DIR" = Some "target/sqlx".
Proof. vm_compute. repeat split; reflexivity. Qed.

Section failures.
Variable cargo : tool.
Implicit Types (s : process).

(* Return codes do not reach the script: tools that differ in nothing    *)
(* but their return codes give the same subprocess statement.            *)
Lemma subprocess_statement_codes cargo' argv s :
  (∀ argv env t, snd <$> cargo' argv env t = snd <$> cargo argv env t) →
  discard (subprocess_run cargo' argv) s = discard (subprocess_run cargo argv) s.
Proof.
  intros Hsame. rewrite !subprocess_statement.
  specialize (Hsame argv (environ s) (fs s)).
  destruct (cargo' argv (environ s) (fs s)) as [[c' t']|],
           (cargo argv (environ s) (fs s)) as [[c t]|]; by simplify_eq/=.
Qed.

Lemma subprocess_statement_exits argv s :
  is_Some (cargo argv (environ s) (fs s)) →
  ∃ s', discard (subprocess_run cargo argv) s = (Ok tt, s').
Proof.
  intros [[c t] Hrun]. rewrite subprocess_statement, Hrun. by eexists.
Qed.

(** C2: for a build tool whose two subprocesses run and exit, with any
    return codes: the return codes have no influence on the run (a tool
    that differs only in its return codes gives the same outcome and the
    same final state); neither subprocess statement raises, so the
    statement after it executes; and the script exits with status 0 unless
    the run stops in the creation of the top-level directory (step 2), in
    the creation of the cache directory (step 4) or in the copy (step 7). *)
Theorem exit_codes_are_ignored cargo' s0 :
  (∀ argv env t, is_Some (cargo argv env t)) →
  (∀ argv env t, snd <$> cargo' argv env t = snd <$> cargo argv env t) →
  main cargo' s0 = main cargo s0 ∧
  (∀ argv s, ∃ s', discard (subprocess_run cargo argv) s = (Ok tt, s')) ∧
  (exit_status (main cargo s0).1 = 0%Z ∨
   ∃ k e s', k ∈ [1; 4; 8] ∧ aborts_at (script cargo) k s0 e s' ∧
             main cargo s0 = (Raise e, s') ∧
             exit_status (main cargo s0).1 = 1%Z).
Proof.
  intros Hexits Hsame. split_and!.
  - apply exec_ext. unfold script.
    repeat (apply Forall2_cons; split;
            [first [intros s; by apply subprocess_statement_codes|done]|]).
    apply Forall2_nil_2.
  - intros argv s. by apply subprocess_statement_exits.
  - destruct (exec_outcome (script cargo) s0) as [[s' Hok]|(k & e & s' & Habort)].
    { left. unfold main. by rewrite Hok. }
    right. exists k, e, s'. pose proof (aborts_at_exec _ _ _ _ _ Habort) as Hmain.
    split; [|split; [done|unfold main; by rewrite Hmain]].
    destruct Habort as (m & sk & Hk & _ & Hraise).
    destruct k as [|[|[|[|[|[|[|[|[|k]]]]]]]]]; [..|done];
      injection Hk as <-; try discriminate Hraise; try set_solver;
      apply subprocess_Raise in Hraise as (Hnone & _);
      match type of Hnone with
      | cargo ?argv _ _ = None => specialize (Hexits argv (environ sk) (fs sk))
      end;
      rewrite Hnone in Hexits; by destruct Hexits.
Qed.

Lemma script_from_makedirs :
  take 1 (script cargo) ++
    os_makedirs_exist_ok TARGET_DIR :: drop 2 (script cargo) = script cargo.
Proof. reflexivity. Qed.

Lemma script_from_mkdir :
  take 4 (script cargo) ++
    os_mkdir SQLX_BUILD_DIR :: drop 5 (script cargo) = script cargo.
Proof. reflexivity. Qed.

(** C5 (amended): an error raised by the creation of the top-level
    directory (step 2) or by the creation of the cache directory (step 4)
    terminates the script at once with that error, in the state in which
    the failing operation started; the two removals of step 3 never
    terminate the script, whatever errors they meet: they are followed by
    step 4. *)
Theorem creation_errors_propagate s0 :
  (∀ s1 e,
     exec (take 1 (script cargo)) s0 = (Ok tt, s1) →
     makedirs_node true (path_of TARGET_DIR) (fs s1) = inl e →
     main cargo s0 = (Raise e, s1)) ∧
  (∀ s4 e,
     exec (take 4 (script cargo)) s0 = (Ok tt, s4) →
     mkdir_node (path_of SQLX_BUILD_DIR) (fs s4) = inl e →
     main cargo s0 = (Raise e, s4)) ∧
  (∀ s2,
     exec (take 2 (script cargo)) s0 = (Ok tt, s2) →
     exec (take 4 (script cargo)) s0 =
       (Ok tt, Process (rmtree_node (path_of SQLX_PREPARE_DIR)
                          (rmtree_node (path_of SQLX_BUILD_DIR) (fs s2)).1).1
                       (environ s2) (spawned s2))).
Proof.
  split_and!.
  - intros s1 e Hpre Hmk. unfold main.
    rewrite <-script_from_makedirs, exec_app, Hpre, exec_cons.
    unfold os_makedirs_exist_ok, lift_fs. by rewrite Hmk.
  - intros s4 e Hpre Hmk. unfold main.
    rewrite <-script_from_mkdir, exec_app, Hpre, exec_cons.
    unfold os_mkdir, lift_fs. by rewrite Hmk.
  - intros s2 Hpre.
    change (take 4 (script cargo))
      with (take 2 (script cargo) ++
            [shutil_rmtree_ignore_errors SQLX_BUILD_DIR;
             shutil_rmtree_ignore_errors SQLX_PREPARE_DIR]).
    by rewrite exec_app, Hpre.
Qed.

(** C6: in a state in which [target/sqlx] is absent, the creation of the
    cache directory does not raise the already-exists error; if it
    completes, [target/sqlx] is an empty directory; and it does complete
    when [target] is a writable directory. *)
Theorem mkdir_after_removal s :
  resolve (path_of SQLX_BUILD_DIR) (fs s) = None →
  (∀ s', os_mkdir SQLX_BUILD_DIR s ≠ (Raise FileExistsError, s')) ∧
  (∀ s', os_mkdir SQLX_BUILD_DIR s = (Ok tt, s') →
         resolve (path_of SQLX_BUILD_DIR) (fs s') = Some (Dir true ∅)) ∧
  (∀ es, resolve (path_of TARGET_DIR) (fs s) = Some (Dir true es) →
         ∃ s', os_mkdir SQLX_BUILD_DIR s = (Ok tt, s')).
Proof.
  intros Habsent. split_and!.
  - intros s' Hraise. apply lift_fs_Raise in Hraise as [Hmk _].
    by apply mkdir_node_not_exists in Hmk.
  - intros s' (t' & Hmk & ->)%mkdir_Ok. by eapply mkdir_node_resolve.
  - intros es Htarget. unfold os_mkdir, lift_fs, mkdir_node. rewrite Habsent.
    rewrite path_of_build, path_of_target in *.
    destruct (fs s) as [|w entries]; [done|]. simpl in Htarget |- *.
    destruct (entries !! "target") as [[|w' es']|]; simplify_eq/=. by eexists.
Qed.

(** C7: when the copy of step 7 is reached and [target/sqlx] does not
    exist or [.sqlx] already exists, the copy raises, nothing is copied and
    the script terminates with that exception and exit status 1. *)
Theorem copy_fails_loudly s0 s8 :
  exec (take 8 (script cargo)) s0 = (Ok tt, s8) →
  resolve (path_of SQLX_BUILD_DIR) (fs s8) = None ∨
  is_Some (resolve (path_of SQLX_PREPARE_DIR) (fs s8)) →
  ∃ e, shutil_copytree SQLX_BUILD_DIR SQLX_PREPARE_DIR s8 = (Raise e, s8) ∧
       main cargo s0 = (Raise e, s8) ∧
       exit_status (main cargo s0).1 = 1%Z.
Proof.
  intros Hpre Hcond.
  assert (∃ e, copytree_node (path_of SQLX_BUILD_DIR) (path_of SQLX_PREPARE_DIR)
                 (fs s8) = inl e) as [e He].
  { unfold copytree_node.
    destruct (resolve (path_of SQLX_BUILD_DIR) (fs s8)) as [[d|w es]|] eqn:Hsrc;
      [by eexists| |by eexists].
    destruct Hcond as [|[d Hdst]]; [done|].
    unfold makedirs_node. rewrite path_of_prepare in *.
    cbn [ancestors length Nat.sub seq fmap list_fmap foldl].
    unfold mkdir_node. rewrite Hdst. by eexists. }
  assert (shutil_copytree SQLX_BUILD_DIR SQLX_PREPARE_DIR s8 = (Raise e, s8)) as Hcopy.
  { unfold shutil_copytree, lift_fs. by rewrite He. }
  assert (main cargo s0 = (Raise e, s8)) as Hmain.
  { unfold main. by rewrite <-script_before_copy, exec_app, Hpre, exec_cons, Hcopy. }
  exists e. by rewrite Hmain.
Qed.

End failures.

(* Carry a kept file along the operations of an inverted run. *)
Ltac keeps_chain Hclean Hcheck q data :=
  repeat match goal with
  | H : _ CARGO_CLEAN _ _ = Some _ |- _ => apply Hclean in H
  | H : _ CARGO_CHECK _ _ = Some _ |- _ => apply Hcheck in H
  | H : makedirs_node _ _ _ = inr _ |- _ => apply (makedirs_node_keeps _ _ q data) in H
  | H : mkdir_node _ _ = inr _ |- _ => apply (mkdir_node_keeps _ q data) in H
  | H : copytree_node _ _ _ = inr _ |- _ => apply (copytree_node_keeps _ _ q data) in H
  end;
  unfold keeps_file in *; auto 12.

Section contents.
Variable cargo : tool.
Implicit Types (s : process) (rel q : path).

(* A successful run, seen from the check: the check started on the empty *)
(* cache directory and the prepared directory is what it left there.     *)
Lemma main_Ok_inv s0 s :
  main cargo s0 = (Ok tt, s) →
  ∃ s7 c t8,
    exec (take 7 (script cargo)) s0 = (Ok tt, s7) ∧
    cargo CARGO_CHECK (environ s7) (fs s7) = Some (c, t8) ∧
    (∀ rel, resolve (path_of SQLX_PREPARE_DIR ++ rel) (fs s) =
            resolve (path_of SQLX_BUILD_DIR ++ rel) t8).
Proof.
  intros Hmain. destruct (exec_Ok_split 7 _ _ _ Hmain) as (s7 & Hpre & Hrest).
  exists s7. exec_inv Hrest. subst s.
  match goal with H : cargo CARGO_CHECK _ _ = Some (?c, ?t) |- _ => exists c, t end.
  split_and!; [done..|]. intros rel. cbn [fs].
  match goal with H : copytree_node _ _ _ = inr _ |- _ =>
    destruct (copytree_node_copy _ _ rel _ _ H) as (d & Hd & _ & ->) end.
  by rewrite resolve_app, Hd.
Qed.

(** C8 (amended): after a successful run, [.sqlx] holds exactly what the
    check left in the cache directory, which was empty when the check
    started: a file that was in [.sqlx] before the run is there afterwards
    only if the check produced it, and if the check leaves the cache empty
    then [.sqlx] is empty.  When a second run, started on the result of the
    first, also completes successfully and its check leaves the same cache
    directory as the check of the first run, [.sqlx] is in the same state
    after both runs. *)
Theorem stale_files_do_not_survive s0 s :
  main cargo s0 = (Ok tt, s) →
  ∃ s7 c t8,
    exec (take 7 (script cargo)) s0 = (Ok tt, s7) ∧
    resolve (path_of SQLX_BUILD_DIR) (fs s7) = Some (Dir true ∅) ∧
    cargo CARGO_CHECK (environ s7) (fs s7) = Some (c, t8) ∧
    (∀ rel, resolve (path_of SQLX_PREPARE_DIR ++ rel) (fs s) =
            resolve (path_of SQLX_BUILD_DIR ++ rel) t8) ∧
    (∀ w, resolve (path_of SQLX_BUILD_DIR) t8 = Some (Dir w ∅) →
          resolve (path_of SQLX_PREPARE_DIR) (fs s) = Some (Dir w ∅)) ∧
    (∀ env log s2 s7' c' t8',
       main cargo (Process (fs s) env log) = (Ok tt, s2) →
       exec (take 7 (script cargo)) (Process (fs s) env log) = (Ok tt, s7') →
       cargo CARGO_CHECK (environ s7') (fs s7') = Some (c', t8') →
       resolve (path_of SQLX_BUILD_DIR) t8' = resolve (path_of SQLX_BUILD_DIR) t8 →
       ∀ rel, resolve (path_of SQLX_PREPARE_DIR ++ rel) (fs s2) =
              resolve (path_of SQLX_PREPARE_DIR ++ rel) (fs s)).
Proof.
  intros Hmain. destruct (main_Ok_inv _ _ Hmain) as (s7 & c & t8 & Hpre & Hcheck & Hcopy).
  pose proof (before_check _ _ _ Hpre) as (Henv & _ & Hempty).
  exists s7, c, t8. split_and!; [done..| |].
  - intros w Hw. specialize (Hcopy []). rewrite !app_nil_r in Hcopy. by rewrite Hcopy.
  - intros env log s2 s7' c' t8' Hmain2 Hpre2 Hcheck2 Hsame rel.
    destruct (main_Ok_inv _ _ Hmain2) as (s7'' & c'' & t8'' & Hpre' & Hcheck' & Hcopy').
    rewrite Hpre2 in Hpre'. injection Hpre' as <-.
    rewrite Hcheck2 in Hcheck'. injection Hcheck' as <- <-.
    by rewrite Hcopy, Hcopy', !resolve_app, Hsame.
Qed.

Lemma subprocess_Raise_fs argv s e s' :
  discard (subprocess_run cargo argv) s = (Raise e, s') → fs s' = fs s.
Proof. by intros (_ & _ & ->)%subprocess_Raise. Qed.

(** C9 (amended): a regular file under [target] and outside [target/sqlx]
    is still there, with the same contents, when the run ends (normally or
    not), provided the clean and the check, as the script invokes them,
    leave it in place: the script's own operations never delete it. *)
Theorem own_operations_keep_target_files s0 rel data :
  (∀ t c t', cargo CARGO_CLEAN (environ s0) t = Some (c, t') →
             keeps_file (path_of TARGET_DIR ++ rel) data t t') →
  (∀ t c t', cargo CARGO_CHECK (check_environ (environ s0)) t = Some (c, t') →
             keeps_file (path_of TARGET_DIR ++ rel) data t t') →
  ¬ path_of SQLX_BUILD_DIR `prefix_of` path_of TARGET_DIR ++ rel →
  resolve (path_of TARGET_DIR ++ rel) (fs s0) = Some (File data) →
  resolve (path_of TARGET_DIR ++ rel) (fs (main cargo s0).2) = Some (File data).
Proof.
  intros Hclean Hcheck Hbuild Hq.
  assert (¬ path_of SQLX_PREPARE_DIR `prefix_of` path_of TARGET_DIR ++ rel) as Hprep.
  { rewrite path_of_prepare, path_of_target. by apply not_prefix_head. }
  set (q := path_of TARGET_DIR ++ rel) in *.
  pose proof (λ t, rmtree_node_keeps (path_of SQLX_BUILD_DIR) q data t Hbuild) as Hrm1.
  pose proof (λ t, rmtree_node_keeps (path_of SQLX_PREPARE_DIR) q data t Hprep) as Hrm2.
  unfold main.
  destruct (exec_outcome (script cargo) s0) as [[s' Hok]|(k & e & s' & Habort)].
  - rewrite Hok. cbn [snd]. exec_inv Hok. subst s'. cbn [fs].
    keeps_chain Hclean Hcheck q data.
  - rewrite (aborts_at_exec _ _ _ _ _ Habort). cbn [snd].
    destruct Habort as (m & sk & Hk & Hpre & Hraise).
    destruct k as [|[|[|[|[|[|[|[|[|k]]]]]]]]]; [..|done];
      injection Hk as <-; try discriminate Hraise;
      first [apply subprocess_Raise_fs in Hraise; rewrite Hraise
            |apply lift_fs_Raise in Hraise as (_ & ->)];
      exec_inv Hpre; subst sk; cbn [fs];
      keeps_chain Hclean Hcheck q data.
Qed.

End contents.

(* ===================================================================== *)
(* The stand-in build tool, and the theorems at concrete workspaces      *)
(* ===================================================================== *)

Lemma stub_cargo_exits wipe queries c1 c2 argv env t :
  is_Some (stub_cargo wipe queries c1 c2 argv env t).
Proof.
  unfold stub_cargo. repeat case_decide; [by eexists| |by eexists].
  destruct (env !! "SQLX_OFFLINE_DIR") as [dir|]; [|by eexists].
  destruct (resolve (path_of dir) t) as [[d|w es]|]; by eexists.
Qed.

Lemma stub_cargo_codes wipe queries c1 c2 c1' c2' argv env t :
  snd <$> stub_cargo wipe queries c1' c2' argv env t =
  snd <$> stub_cargo wipe queries c1 c2 argv env t.
Proof.
  unfold stub_cargo. repeat case_decide; [done| |done].
  destruct (env !! "SQLX_OFFLINE_DIR") as [dir|]; [|done].
  by destruct (resolve (path_of dir) t) as [[d|w es]|].
Qed.

Lemma stub_cargo_check wipe queries c1 c2 env t :
  env !! "SQLX_OFFLINE" = Some "false" →
  env !! "SQLX_OFFLINE_DIR" = Some SQLX_BUILD_DIR →
  stub_cargo wipe queries c1 c2 CARGO_CHECK env t =
    Some (c2, match resolve (path_of SQLX_BUILD_DIR) t with
              | Some (Dir w _) =>
                  fs_update (λ _, Some (Dir w queries)) (path_of SQLX_BUILD_DIR) t
              | _ => t
              end).
Proof.
  intros Hoff Hdir. unfold stub_cargo. rewrite Hdir.
  case_decide; [done|]. case_decide; [|done].
  by destruct (resolve (path_of SQLX_BUILD_DIR) t) as [[d|w es]|].
Qed.

Lemma gentle_cargo_check q data env t c t' :
  env !! "SQLX_OFFLINE" = Some "false" →
  env !! "SQLX_OFFLINE_DIR" = Some SQLX_BUILD_DIR →
  ¬ path_of SQLX_BUILD_DIR `prefix_of` q →
  gentle_cargo CARGO_CHECK env t = Some (c, t') → keeps_file q data t t'.
Proof.
  intros Hoff Hdir Hq. unfold gentle_cargo.
  rewrite (stub_cargo_check _ _ _ _ _ _ Hoff Hdir).
  remember (path_of SQLX_BUILD_DIR) as p eqn:Hp.
  destruct (resolve p t) as [[d|w es]|]; intros [= _ <-];
    [apply keeps_file_refl| |apply keeps_file_refl].
  intros Hfile. by apply resolve_update_file.
Qed.

Lemma gentle_cargo_clean q data env t c t' :
  gentle_cargo CARGO_CLEAN env t = Some (c, t') → keeps_file q data t t'.
Proof.
  unfold gentle_cargo, stub_cargo. rewrite decide_True by done.
  intros [= _ <-]. apply keeps_file_refl.
Qed.

(* The scenarios of an empty workspace and of stale artifacts. *)
Example empty_workspace_scenario :
  (main demo_cargo (start fresh_workspace)).1 = Ok tt ∧
  is_dir (resolve ["target"] (fs (main demo_cargo (start fresh_workspace)).2)) = true ∧
  resolve ["target"; "sqlx"] (fs (main demo_cargo (start fresh_workspace)).2) =
    Some (Dir true two_queries) ∧
  resolve [".sqlx"] (fs (main demo_cargo (start fresh_workspace)).2) =
    Some (Dir true two_queries).
Proof. vm_compute. repeat split; reflexivity. Qed.

Example stale_artifacts_scenario :
  resolve [".sqlx"; "stale.json"] stale_workspace = Some (File json_a) ∧
  (main empty_cargo (start stale_workspace)).1 = Ok tt ∧
  resolve [".sqlx"; "stale.json"] (fs (main empty_cargo (start stale_workspace)).2) = None ∧
  resolve [".sqlx"] (fs (main empty_cargo (start stale_workspace)).2) = Some (Dir true ∅).
Proof. vm_compute. repeat split; reflexivity. Qed.

Example failing_exit_codes_scenario :
  main failing_cargo (start stale_workspace) = main demo_cargo (start stale_workspace) ∧
  exit_status (main failing_cargo (start stale_workspace)).1 = 0%Z.
Proof. vm_compute. split; reflexivity. Qed.

Example missing_tool_scenario :
  (main missing_cargo (start fresh_workspace)).1 = Raise FileNotFoundError.
Proof. reflexivity. Qed.

Lemma exit_codes_are_ignored_witness :
  (∀ argv env t, is_Some (demo_cargo argv env t)) ∧
  (∀ argv env t, snd <$> failing_cargo argv env t = snd <$> demo_cargo argv env t) ∧
  main failing_cargo (start stale_workspace) = main demo_cargo (start stale_workspace).
Proof.
  split; [|split].
  - intros argv env t. apply stub_cargo_exits.
  - intros argv env t. apply stub_cargo_codes.
  - exact (proj1 (exit_codes_are_ignored demo_cargo failing_cargo (start stale_workspace)
                    (λ argv env t, stub_cargo_exits true two_queries 0 0 argv env t)
                    (λ argv env t, stub_cargo_codes true two_queries 0 0 101 101 argv env t))).
Defined.

Lemma creation_errors_propagate_witness :
  exec (take 1 (script gentle_cargo)) (start blocked_workspace) =
    (Ok tt, (exec (take 1 (script gentle_cargo)) (start blocked_workspace)).2) ∧
  makedirs_node true (path_of TARGET_DIR)
    (fs (exec (take 1 (script gentle_cargo)) (start blocked_workspace)).2) =
    inl FileExistsError ∧
  main gentle_cargo (start blocked_workspace) =
    (Raise FileExistsError,
     (exec (take 1 (script gentle_cargo)) (start blocked_workspace)).2).
Proof.
  assert (exec (take 1 (script gentle_cargo)) (start blocked_workspace) =
          (Ok tt, (exec (take 1 (script gentle_cargo)) (start blocked_workspace)).2))
    as Hrun by (vm_compute; reflexivity).
  assert (makedirs_node true (path_of TARGET_DIR)
            (fs (exec (take 1 (script gentle_cargo)) (start blocked_workspace)).2) =
          inl FileExistsError) as Hmk by (vm_compute; reflexivity).
  split; [exact Hrun|]. split; [exact Hmk|].
  exact (proj1 (creation_errors_propagate gentle_cargo (start blocked_workspace)) _ _ Hrun Hmk).
Defined.

(* C5 as stated fails for step 3: the removal of [.sqlx] meets a
   permission error, yet the script goes on, spawns the check and only
   stops in the copy, with a different exception. *)
Lemma removal_errors_are_swallowed :
  (exec (take 3 (script demo_cargo)) (start locked_workspace)).1 = Ok tt ∧
  (rmtree_node (path_of SQLX_PREPARE_DIR)
     (fs (exec (take 3 (script demo_cargo)) (start locked_workspace)).2)).2 =
    [PermissionError; OSError_errno "ENOTEMPTY"; OSError_errno "ENOTEMPTY"] ∧
  (exec (take 4 (script demo_cargo)) (start locked_workspace)).1 = Ok tt ∧
  (main demo_cargo (start locked_workspace)).1 = Raise FileExistsError ∧
  spawned (main demo_cargo (start locked_workspace)).2 =
    [(CARGO_CLEAN, shell_environ); (CARGO_CHECK, check_environ shell_environ)].
Proof. vm_compute. repeat split; reflexivity. Qed.

Lemma mkdir_after_removal_witness :
  resolve (path_of SQLX_BUILD_DIR) (fs after_removals) = None ∧
  resolve (path_of SQLX_BUILD_DIR) (fs (os_mkdir SQLX_BUILD_DIR after_removals).2) =
    Some (Dir true ∅).
Proof.
  assert (resolve (path_of SQLX_BUILD_DIR) (fs after_removals) = None)
    as Habsent by (vm_compute; reflexivity).
  split; [exact Habsent|].
  apply (proj1 (proj2 (mkdir_after_removal after_removals Habsent))).
  vm_compute; reflexivity.
Defined.

Lemma copy_fails_loudly_witness :
  exec (take 8 (script demo_cargo)) (start locked_workspace) =
    (Ok tt, (exec (take 8 (script demo_cargo)) (start locked_workspace)).2) ∧
  is_Some (resolve (path_of SQLX_PREPARE_DIR)
             (fs (exec (take 8 (script demo_cargo)) (start locked_workspace)).2)) ∧
  ∃ e, main demo_cargo (start locked_workspace) =
         (Raise e, (exec (take 8 (script demo_cargo)) (start locked_workspace)).2).
Proof.
  assert (exec (take 8 (script demo_cargo)) (start locked_workspace) =
          (Ok tt, (exec (take 8 (script demo_cargo)) (start locked_workspace)).2))
    as Hrun by (vm_compute; reflexivity).
  assert (is_Some (resolve (path_of SQLX_PREPARE_DIR)
            (fs (exec (take 8 (script demo_cargo)) (start locked_workspace)).2)))
    as Hdst by (vm_compute; eexists; reflexivity).
  split; [exact Hrun|]. split; [exact Hdst|].
  destruct (copy_fails_loudly demo_cargo (start locked_workspace) _ Hrun (or_intror Hdst))
    as (e & _ & Hmain & _).
  exists e. exact Hmain.
Defined.

Lemma stale_files_do_not_survive_witness :
  main demo_cargo (start stale_workspace) =
    (Ok tt, (main demo_cargo (start stale_workspace)).2) ∧
  resolve (path_of SQLX_PREPARE_DIR ++ ["stale.json"]) (fs (start stale_workspace)) =
    Some (File json_a) ∧
  resolve (path_of SQLX_PREPARE_DIR ++ ["stale.json"])
    (fs (main demo_cargo (start stale_workspace)).2) = None ∧
  ∀ rel,
    resolve (path_of SQLX_PREPARE_DIR ++ rel)
      (fs (main demo_cargo
             (start (fs (main demo_cargo (start stale_workspace)).2))).2) =
    resolve (path_of SQLX_PREPARE_DIR ++ rel)
      (fs (main demo_cargo (start stale_workspace)).2).
Proof.
  assert (main demo_cargo (start stale_workspace) =
          (Ok tt, (main demo_cargo (start stale_workspace)).2))
    as Hrun by (vm_compute; reflexivity).
  split; [exact Hrun|].
  split; [vm_compute; reflexivity|]. split; [vm_compute; reflexivity|].
  destruct (stale_files_do_not_survive demo_cargo (start stale_workspace) _ Hrun)
    as (s7 & c & t8 & _ & _ & _ & Hcopy & _ & Hagain).
  specialize (Hcopy []). rewrite !app_nil_r in Hcopy.
  apply (Hagain shell_environ []
           (main demo_cargo (start (fs (main demo_cargo (start stale_workspace)).2))).2
           (exec (take 7 (script demo_cargo))
              (start (fs (main demo_cargo (start stale_workspace)).2))).2
           0%Z
           (fs (exec (take 8 (script demo_cargo))
                  (start (fs (main demo_cargo (start stale_workspace)).2))).2));
    [vm_compute; reflexivity..|].
  rewrite <-Hcopy. vm_compute; reflexivity.
Defined.

(* C8 as stated fails.  A check that always writes the same cache, with a
   read-only directory in it: the first run completes, the second run
   cannot clear [.sqlx], stops in the copy, and leaves [.sqlx] without
   the query file of the first run.  And a check whose output depends on
   a file it wrote itself: both runs complete, with different [.sqlx]. *)
Lemma rerun_changes_prepared_directory :
  ((main readonly_cargo (start fresh_workspace)).1 = Ok tt ∧
   resolve (path_of SQLX_PREPARE_DIR ++ ["a.json"])
     (fs (main readonly_cargo (start fresh_workspace)).2) = Some (File json_a) ∧
   (main readonly_cargo
      (start (fs (main readonly_cargo (start fresh_workspace)).2))).1 =
     Raise FileExistsError ∧
   resolve (path_of SQLX_PREPARE_DIR ++ ["a.json"])
     (fs (main readonly_cargo
            (start (fs (main readonly_cargo (start fresh_workspace)).2))).2) = None) ∧
  ((main lockfile_cargo (start fresh_workspace)).1 = Ok tt ∧
   resolve (path_of SQLX_PREPARE_DIR ++ ["query-1.json"])
     (fs (main lockfile_cargo (start fresh_workspace)).2) = None ∧
   (main lockfile_cargo
      (start (fs (main lockfile_cargo (start fresh_workspace)).2))).1 = Ok tt ∧
   resolve (path_of SQLX_PREPARE_DIR ++ ["query-1.json"])
     (fs (main lockfile_cargo
            (start (fs (main lockfile_cargo (start fresh_workspace)).2))).2) =
     Some (File json_a)).
Proof. vm_compute. repeat split; reflexivity. Qed.

Lemma own_operations_keep_target_files_witness :
  resolve (path_of TARGET_DIR ++ ["notes.txt"]) (fs (start stale_workspace)) =
    Some (File json_b) ∧
  resolve (path_of TARGET_DIR ++ ["notes.txt"])
    (fs (main gentle_cargo (start stale_workspace)).2) = Some (File json_b).
Proof.
  assert (resolve (path_of TARGET_DIR ++ ["notes.txt"]) (fs (start stale_workspace)) =
          Some (File json_b)) as Hfile by (vm_compute; reflexivity).
  assert (¬ path_of SQLX_BUILD_DIR `prefix_of` path_of TARGET_DIR ++ ["notes.txt"])
    as Hout by (intros [k Hk]; vm_compute in Hk; discriminate Hk).
  split; [exact Hfile|].
  apply (own_operations_keep_target_files gentle_cargo (start stale_workspace)
           ["notes.txt"] json_b).
  - intros t c t'. apply gentle_cargo_clean.
  - intros t c t'. apply gentle_cargo_check;
      [apply check_environ_offline|apply check_environ_offline_dir|exact Hout].
  - exact Hout.
  - exact Hfile.
Defined.

(* C9 as stated fails: the clean subprocess deletes the whole top-level
   output directory, and an unrelated file in it is gone after the run. *)
Lemma clean_wipes_target_files :
  resolve (path_of TARGET_DIR ++ ["notes.txt"]) (fs (start stale_workspace)) =
    Some (File json_b) ∧
  ¬ path_of SQLX_BUILD_DIR `prefix_of` path_of TARGET_DIR ++ ["notes.txt"] ∧
  (main demo_cargo (start stale_workspace)).1 = Ok tt ∧
  resolve (path_of TARGET_DIR ++ ["notes.txt"])
    (fs (main demo_cargo (start stale_workspace)).2) = None.
Proof.
  split; [vm_compute; reflexivity|]. split.
  - intros [k Hk]. vm_compute in Hk. discriminate Hk.
  - vm_compute. split; reflexivity.
Qed.

(* ===================================================================== *)
(* Trees in which every directory is writable                            *)
(* ===================================================================== *)

Section writable_trees.
Implicit Types (p q rel : path) (n t d : node) (es : gmap string node).

Lemma map_fold_andb_true (f : node → bool) es :
  map_fold (λ _ c acc, f c && acc) true es = true ↔
  ∀ x c, es !! x = Some c → f c = true.
Proof.
  apply (map_fold_weak_ind
           (λ r m, r = true ↔ ∀ x c, m !! x = Some c → f c = true)); clear es.
  - split; [|done]. intros _ x c. by rewrite lookup_empty.
  - intros i c m r Hi IH. rewrite andb_true_iff, IH. split.
    + intros [Hc Hm] x c'. rewrite lookup_insert. case_decide; [|by apply Hm].
      by intros [= <-].
    + intros Hall. split.
      * apply (Hall i). by rewrite lookup_insert_eq.
      * intros x c' Hx. apply (Hall x). rewrite lookup_insert_ne; [done|].
        intros ->. by rewrite Hi in Hx.
Qed.

Lemma map_fold_sum_ge (g : node → nat) es x c :
  es !! x = Some c → g c ≤ map_fold (λ _ c acc, g c + acc) 0 es.
Proof.
  revert x c.
  apply (map_fold_weak_ind (λ r m, ∀ x c, m !! x = Some c → g c ≤ r)); clear es.
  - intros x c. by rewrite lookup_empty.
  - intros i c m r Hi IH x c'. rewrite lookup_insert. case_decide.
    + intros [= <-]. lia.
    + intros Hx. specialize (IH _ _ Hx). lia.
Qed.

Lemma all_writable_Dir w es :
  all_writable (Dir w es) = true ↔
  w = true ∧ ∀ x c, es !! x = Some c → all_writable c = true.
Proof. cbn [all_writable]. by rewrite andb_true_iff, map_fold_andb_true. Qed.

Lemma node_size_child w es x c :
  es !! x = Some c → node_size c < node_size (Dir w es).
Proof.
  intros Hx. cbn [node_size].
  pose proof (map_fold_sum_ge node_size es x c Hx). lia.
Qed.

(* Induction on trees: a directory has the property when its entries do. *)
Lemma node_children_ind (P : node → Prop) :
  (∀ data, P (File data)) →
  (∀ w es, (∀ x c, es !! x = Some c → P c) → P (Dir w es)) →
  ∀ n, P n.
Proof.
  intros Hfile Hdir n. remember (node_size n) as k eqn:Hk.
  revert n Hk. induction k as [k IHk] using lt_wf_ind. intros n ->.
  destruct n as [data|w es]; [apply Hfile|].
  apply Hdir. intros x c Hx. apply (IHk (node_size c)); [|done].
  by eapply node_size_child.
Qed.

Lemma all_writable_resolve p t d :
  all_writable t = true → resolve p t = Some d → all_writable d = true.
Proof.
  revert t. induction p as [|x p IH]; intros t Ht; simpl.
  - by intros [= <-].
  - destruct t as [|w es]; [done|]. destruct (es !! x) as [c|] eqn:Hx; [|done].
    apply IH. apply all_writable_Dir in Ht as [_ Ht]. by eapply Ht.
Qed.

Lemma all_writable_parent p t w :
  all_writable t = true → resolve_parent p t = inr w → w = true.
Proof.
  revert t. induction p as [|x p IH]; intros t Ht; simpl; [done|].
  destruct t as [|w' es]; [done|]. apply all_writable_Dir in Ht as [-> Ht].
  destruct p as [|y p]; [by intros [= <-]|].
  destruct (es !! x) as [c|] eqn:Hx; [|done]. apply IH. by eapply Ht.
Qed.

Lemma all_writable_update f p t :
  all_writable t = true →
  (∀ o d, f o = Some d → all_writable d = true) →
  all_writable (fs_update f p t) = true.
Proof.
  intros Ht Hf. revert t Ht. induction p as [|x p IH]; intros t Ht.
  - simpl. destruct (f (Some t)) as [d|] eqn:Hd; [by eapply Hf|done].
  - destruct t as [|w es]; [done|].
    apply all_writable_Dir in Ht as [-> Ht].
    destruct p as [|y p]; cbn [fs_update]; apply all_writable_Dir; (split; [done|]);
      intros z c.
    + rewrite lookup_partial_alter. case_decide; [apply Hf|apply Ht].
    + rewrite lookup_alter. case_decide; [|apply Ht]. subst z.
      destruct (es !! x) as [c0|] eqn:Hx; [|done]. intros [= <-].
      apply IH. by eapply Ht.
Qed.

(* In a tree without read-only directories the removal empties every     *)
(* directory and its error handler is never called.                      *)
Lemma purge_all_writable n :
  all_writable n = true →
  match n with
  | File _ => True
  | Dir _ _ => purge n = Dir true ∅ ∧ purge_errors n = []
  end.
Proof.
  induction n as [data|w es IH] using node_children_ind; [done|].
  intros [-> Hes]%all_writable_Dir.
  assert (∀ x c, es !! x = Some c → removable (purge c) = true) as Hrm.
  { intros x c Hx. specialize (IH x c Hx (Hes x c Hx)).
    destruct c as [data|w' es']; [done|]. destruct IH as [-> _]. simpl.
    by apply bool_decide_eq_true. }
  split.
  - cbn [purge]. f_equal. apply map_empty. intros x. rewrite lookup_omap.
    destruct (es !! x) as [c|] eqn:Hx; [|done]. simpl. by rewrite (Hrm x c Hx).
  - cbn [purge_errors]. revert IH Hes Hrm.
    apply (map_fold_weak_ind
             (λ r m, (∀ x c, m !! x = Some c → all_writable c = true →
                             match c with
                             | File _ => True
                             | Dir _ _ => purge c = Dir true ∅ ∧ purge_errors c = []
                             end) →
                     (∀ x c, m !! x = Some c → all_writable c = true) →
                     (∀ x c, m !! x = Some c → removable (purge c) = true) →
                     r = [])); clear es; [done|].
    intros i c m r Hi IHm IH Hes Hrm.
    assert (m ⊆ <[i:=c]> m) as Hsub by by apply insert_subseteq.
    rewrite IHm; first last.
    { intros x c' Hx. apply (Hrm x). by eapply lookup_weaken. }
    { intros x c' Hx. apply (Hes x). by eapply lookup_weaken. }
    { intros x c' Hx. apply (IH x). by eapply lookup_weaken. }
    rewrite app_nil_r.
    assert (<[i:=c]> m !! i = Some c) as Hc by by rewrite lookup_insert_eq.
    destruct c as [data|w' es']; [done|].
    destruct (IH i _ Hc (Hes i _ Hc)) as [_ ->].
    unfold rmdir_errors. by rewrite (Hrm i _ Hc).
Qed.

End writable_trees.

(* ===================================================================== *)
(* What the directory operations leave behind                            *)
(* ===================================================================== *)

Section leftovers.
Implicit Types (p q rel : path) (n t d : node) (es : gmap string node).

Lemma purge_leftover rel n data :
  resolve rel (purge n) = Some (File data) → resolve rel n = Some (File data).
Proof.
  revert n. induction rel as [|x rel IH]; intros n.
  - destruct n; simpl; [done|]. intros [=].
  - destruct n as [|w es]; [done|]. cbn [purge resolve]. rewrite lookup_omap.
    destruct (es !! x) as [c|]; [|done]. simpl.
    destruct (w && removable (purge c)); [done|]. apply IH.
Qed.

(* An update that puts no new regular file at p puts none anywhere. *)
Lemma update_no_new_files f p t q data :
  (∀ d' rel data, f (resolve p t) = Some d' →
                  resolve rel d' = Some (File data) →
                  resolve p t ≫= resolve rel = Some (File data)) →
  resolve q (fs_update f p t) = Some (File data) →
  resolve q t = Some (File data).
Proof.
  revert q t. induction p as [|x p IH]; intros q t Hf.
  - simpl in *. destruct (f (Some t)) as [d'|] eqn:Hd; [|done].
    intros Hq. by apply (Hf d' q data).
  - destruct t as [|w es]; [done|].
    destruct q as [|y q].
    { destruct p; simpl; intros [=]. }
    destruct p as [|z p].
    + cbn [fs_update resolve]. rewrite lookup_partial_alter.
      case_decide as Hxy; [subst y|done].
      destruct (f (es !! x)) as [d'|] eqn:Hd; [|done]. intros Hq.
      specialize (Hf d' q data). cbn [resolve] in Hf.
      destruct (es !! x) as [c|]; cbn in Hf; by apply Hf.
    + change (resolve (y :: q) (fs_update f (x :: z :: p) (Dir w es)))
        with (match alter (fs_update f (z :: p)) x es !! y with
              | Some c' => resolve q c'
              | None => None
              end).
      rewrite lookup_alter. case_decide as Hxy; [subst y|done]. cbn [resolve].
      destruct (es !! x) as [c|] eqn:Hx; [|done]. cbn [fmap option_fmap option_map].
      apply IH. intros d' rel data' Hd Hrel. specialize (Hf d' rel data').
      cbn [resolve] in Hf. rewrite Hx in Hf. by apply Hf.
Qed.

(* A directory that is not below p is still a directory after an update  *)
(* at p.                                                                 *)
Lemma update_keeps_dir f p t q :
  ¬ p `prefix_of` q →
  is_dir (resolve q t) = true →
  is_dir (resolve q (fs_update f p t)) = true.
Proof.
  revert q t. induction p as [|x p IH]; intros q t Hpq.
  { destruct Hpq. apply prefix_nil. }
  destruct t as [|w es]; [done|].
  destruct q as [|y q]; [by destruct p|].
  destruct (decide (x = y)) as [->|Hxy].
  - assert (¬ p `prefix_of` q) as Hpq' by (intros ?; apply Hpq; by apply prefix_cons).
    destruct p as [|z p]; [destruct Hpq'; apply prefix_nil|].
    change (resolve (y :: q) (fs_update f (y :: z :: p) (Dir w es)))
      with (match alter (fs_update f (z :: p)) y es !! y with
            | Some c' => resolve q c'
            | None => None
            end).
    rewrite lookup_alter_eq. cbn [resolve].
    destruct (es !! y) as [c|]; [|done]. cbn [fmap option_fmap option_map].
    by apply IH.
  - destruct p as [|z p]; cbn [fs_update resolve].
    + by rewrite lookup_partial_alter_ne.
    + by rewrite lookup_alter_ne.
Qed.

Lemma mkdir_node_no_new_files p t t' q data :
  mkdir_node p t = inr t' →
  resolve q t' = Some (File data) → resolve q t = Some (File data).
Proof.
  intros (Hnone & _ & ->)%mkdir_node_inv. apply update_no_new_files.
  intros d' rel data' [= <-]. destruct rel; simpl; [done|]. by rewrite lookup_empty.
Qed.

Lemma rmtree_node_no_new_files p t q data :
  resolve q (rmtree_node p t).1 = Some (File data) → resolve q t = Some (File data).
Proof.
  unfold rmtree_node. destruct (resolve p t) as [[d|w es]|] eqn:Hres; [done| |done].
  assert (∀ f, (∀ o, f o = None ∨ f o = Some (purge (Dir w es))) →
               resolve q (fs_update f p t) = Some (File data) →
               resolve q t = Some (File data)) as Hupd.
  { intros f Hf. apply update_no_new_files. intros d' rel data' Hd Hrel.
    rewrite Hres. destruct (Hf (Some (Dir w es))) as [Hnone|Hsome].
    - by rewrite Hres, Hnone in Hd.
    - rewrite Hres, Hsome in Hd. injection Hd as <-. by apply purge_leftover. }
  destruct (resolve_parent p t) as [e|[]];
    [|destruct (removable (purge (Dir w es)))|]; cbn [fst]; apply Hupd; auto.
Qed.

Lemma rmtree_node_keeps_dir p t q :
  ¬ p `prefix_of` q →
  is_dir (resolve q t) = true → is_dir (resolve q (rmtree_node p t).1) = true.
Proof.
  intros Hpq Hq. unfold rmtree_node.
  destruct (resolve p t) as [[d|w es]|]; [done| |done].
  destruct (resolve_parent p t) as [e|[]];
    [|destruct (removable (purge (Dir w es)))|]; cbn [fst]; by apply update_keeps_dir.
Qed.

Lemma rmtree_node_apart p t q :
  ¬ p `prefix_of` q → ¬ q `prefix_of` p →
  resolve q (rmtree_node p t).1 = resolve q t.
Proof.
  intros Hpq Hqp. unfold rmtree_node.
  destruct (resolve p t) as [[d|w es]|]; [done| |done].
  destruct (resolve_parent p t) as [e|[]];
    [|destruct (removable (purge (Dir w es)))|]; cbn [fst];
    by apply resolve_update_apart.
Qed.

(* A directory in which nothing is read-only, held by a writable         *)
(* directory, is removed completely and without any error.               *)
Lemma rmtree_node_removes p t w es :
  resolve p t = Some (Dir w es) →
  all_writable (Dir w es) = true →
  resolve_parent p t = inr true →
  rmtree_node p t = (fs_update (λ _, None) p t, []).
Proof.
  intros Hres Hall Hpar.
  destruct (purge_all_writable (Dir w es) Hall) as [Hpurge Herrs].
  unfold rmtree_node. rewrite Hres, Hpar. cbv zeta. rewrite Hpurge, Herrs.
  cbn [removable]. by rewrite bool_decide_eq_true_2.
Qed.

Lemma rmtree_node_clears p t :
  all_writable t = true →
  is_file (resolve p t) = false →
  p ≠ [] →
  resolve p (rmtree_node p t).1 = None ∧
  all_writable (rmtree_node p t).1 = true.
Proof.
  intros Hall Hfile Hp.
  destruct (resolve p t) as [[d|w es]|] eqn:Hres; [done| |].
  - destruct (resolve_parent_is_Some p t Hp) as [w' Hpar]; [by eexists|].
    pose proof (all_writable_parent _ _ _ Hall Hpar) as ->.
    rewrite (rmtree_node_removes p t w es Hres); [|by eapply all_writable_resolve|done].
    cbn [fst]. split.
    + by rewrite (resolve_update_eq _ _ _ _ Hpar).
    + by apply all_writable_update.
  - unfold rmtree_node. rewrite Hres. done.
Qed.

Lemma ancestors_prefix p q : q ∈ ancestors p → ∃ rel, p = q ++ rel.
Proof.
  unfold ancestors. intros (k & -> & _)%list_elem_of_fmap.
  exists (drop k p). by rewrite take_drop.
Qed.

Lemma foldl_make_missing_existing t l :
  (∀ q, q ∈ l → is_Some (resolve q t)) →
  foldl make_missing (inr t) l = inr t.
Proof.
  induction l as [|a l IH]; intros Hall; [done|]. simpl.
  destruct (Hall a) as [d ->]; [by left|]. apply IH. intros q Hq. apply Hall. by right.
Qed.

Lemma ancestors_existing p t :
  is_Some (resolve p t) → foldl make_missing (inr t) (ancestors p) = inr t.
Proof.
  intros Hp. apply foldl_make_missing_existing. intros q [rel ->]%ancestors_prefix.
  by eapply resolve_prefix_is_Some.
Qed.

(* os.makedirs with exist_ok on a directory that exists changes nothing; *)
(* on a regular file it raises.                                          *)
Lemma makedirs_node_existing p t :
  is_dir (resolve p t) = true → makedirs_node true p t = inr t.
Proof.
  intros Hdir. unfold makedirs_node.
  rewrite ancestors_existing by (by destruct (resolve p t); [eexists|]).
  unfold mkdir_node. destruct (resolve p t); [|done]. by rewrite Hdir.
Qed.

Lemma makedirs_node_on_file ok p t :
  is_file (resolve p t) = true → makedirs_node ok p t = inl FileExistsError.
Proof.
  intros Hfile. unfold makedirs_node.
  rewrite ancestors_existing by (by destruct (resolve p t); [eexists|]).
  unfold mkdir_node. destruct (resolve p t) as [[d|w es]|]; [|done..].
  by rewrite andb_false_r.
Qed.

Lemma makedirs_node_is_dir ok p t t' :
  makedirs_node ok p t = inr t' → is_dir (resolve p t') = true.
Proof.
  unfold makedirs_node.
  destruct (foldl make_missing (inr t) (ancestors p)) as [e|t1]; [done|].
  destruct (mkdir_node p t1) as [e|t2] eqn:Hmk.
  - destruct ok; [|done]. simpl. destruct (is_dir (resolve p t1)) eqn:Hdir; [|done].
    by intros [= <-].
  - intros [= <-]. by rewrite (mkdir_node_resolve _ _ _ Hmk).
Qed.

Lemma foldl_make_missing_no_new_files q data l t t' :
  foldl make_missing (inr t) l = inr t' →
  resolve q t' = Some (File data) → resolve q t = Some (File data).
Proof.
  revert t. induction l as [|a l IH]; intros t; simpl.
  - by intros [= <-].
  - destruct (resolve a t) eqn:Ha; [apply IH|].
    destruct (mkdir_node a t) as [e|t1] eqn:Hmk.
    + by rewrite foldl_make_missing_inl.
    + intros Hfold Hq. eapply mkdir_node_no_new_files; [done|]. by eapply IH.
Qed.

Lemma makedirs_node_no_new_files ok p t t' q data :
  makedirs_node ok p t = inr t' →
  resolve q t' = Some (File data) → resolve q t = Some (File data).
Proof.
  unfold makedirs_node.
  destruct (foldl make_missing (inr t) (ancestors p)) as [e|t1] eqn:Hfold; [done|].
  destruct (mkdir_node p t1) as [e|t2] eqn:Hmk.
  - destruct (ok && is_dir (resolve p t1)); [|done]. intros [= <-].
    by eapply foldl_make_missing_no_new_files.
  - intros [= <-] Hq. eapply foldl_make_missing_no_new_files; [done|].
    by eapply mkdir_node_no_new_files.
Qed.

Lemma mkdir_node_all_writable p t t' :
  mkdir_node p t = inr t' → all_writable t = true → all_writable t' = true.
Proof.
  intros (_ & _ & ->)%mkdir_node_inv Hall. apply all_writable_update; [done|].
  by intros o d [= <-].
Qed.

Lemma foldl_make_missing_all_writable l t t' :
  foldl make_missing (inr t) l = inr t' →
  all_writable t = true → all_writable t' = true.
Proof.
  revert t. induction l as [|a l IH]; intros t; simpl.
  - by intros [= <-].
  - destruct (resolve a t) eqn:Ha; [apply IH|].
    destruct (mkdir_node a t) as [e|t1] eqn:Hmk.
    + by rewrite foldl_make_missing_inl.
    + intros Hfold Hall. eapply IH; [done|]. by eapply mkdir_node_all_writable.
Qed.

Lemma makedirs_node_all_writable ok p t t' :
  makedirs_node ok p t = inr t' → all_writable t = true → all_writable t' = true.
Proof.
  unfold makedirs_node.
  destruct (foldl make_missing (inr t) (ancestors p)) as [e|t1] eqn:Hfold; [done|].
  intros Hmk Hall. pose proof (foldl_make_missing_all_writable _ _ _ Hfold Hall) as H1.
  destruct (mkdir_node p t1) as [e|t2] eqn:Hmkdir.
  - destruct (ok && is_dir (resolve p t1)); [|done]. by injection Hmk as <-.
  - injection Hmk as <-. by eapply mkdir_node_all_writable.
Qed.

End leftovers.

(* ===================================================================== *)
(* Further properties of the script                                      *)
(* ===================================================================== *)

Section paths.
Implicit Types (q : path) (t : node).

Lemma build_not_prefix_target :
  ¬ path_of SQLX_BUILD_DIR `prefix_of` path_of TARGET_DIR.
Proof.
  rewrite path_of_build, path_of_target. intros H%prefix_cons_inv_2.
  by apply prefix_nil_not in H.
Qed.

Lemma prepare_not_prefix_target :
  ¬ path_of SQLX_PREPARE_DIR `prefix_of` path_of TARGET_DIR.
Proof. rewrite path_of_prepare, path_of_target. by apply not_prefix_head. Qed.

Lemma prepare_not_prefix_build :
  ¬ path_of SQLX_PREPARE_DIR `prefix_of` path_of SQLX_BUILD_DIR.
Proof. rewrite path_of_prepare, path_of_build. by apply not_prefix_head. Qed.

Lemma build_not_prefix_prepare :
  ¬ path_of SQLX_BUILD_DIR `prefix_of` path_of SQLX_PREPARE_DIR.
Proof. rewrite path_of_prepare, path_of_build. by apply not_prefix_head. Qed.

(* A path outside target is apart from target and from target/sqlx. *)
Lemma outside_target q :
  q ≠ [] → ¬ path_of TARGET_DIR `prefix_of` q →
  ¬ q `prefix_of` path_of TARGET_DIR ∧
  ¬ path_of SQLX_BUILD_DIR `prefix_of` q ∧
  ¬ q `prefix_of` path_of SQLX_BUILD_DIR.
Proof.
  rewrite path_of_target, path_of_build. intros Hq Hout.
  assert (∀ rel, ¬ q `prefix_of` "target" :: rel) as Hhead.
  { intros rel [k Hk]. destruct q as [|y q]; [done|]. simplify_eq/=.
    apply Hout. by apply prefix_cons, prefix_nil. }
  split_and!; [apply Hhead| |apply Hhead].
  intros Hpre. apply Hout. etrans; [|exact Hpre]. by apply prefix_cons, prefix_nil.
Qed.

Lemma outside_prepare q :
  q ≠ [] → ¬ path_of SQLX_PREPARE_DIR `prefix_of` q →
  ¬ q `prefix_of` path_of SQLX_PREPARE_DIR.
Proof.
  rewrite path_of_prepare. intros Hq Hout [k Hk].
  destruct q as [|y q]; [done|]. simplify_eq/=.
  apply Hout. by apply prefix_cons, prefix_nil.
Qed.

Lemma resolve_parent_build t w es :
  resolve (path_of TARGET_DIR) t = Some (Dir w es) →
  resolve_parent (path_of SQLX_BUILD_DIR) t = inr w.
Proof.
  rewrite path_of_target, path_of_build. destruct t as [|w' es']; [done|]. simpl.
  destruct (es' !! "target") as [[|w'' es'']|]; [done| |done]. by intros [= -> ->].
Qed.

Lemma makedirs_node_single ok (x : string) t :
  makedirs_node ok [x] t =
  match mkdir_node [x] t with
  | inr t2 => inr t2
  | inl e => if ok && is_dir (resolve [x] t) then inr t else inl e
  end.
Proof. reflexivity. Qed.

Lemma mkdir_node_apart p t t' q :
  mkdir_node p t = inr t' →
  ¬ p `prefix_of` q → ¬ q `prefix_of` p →
  resolve q t' = resolve q t.
Proof. intros (_ & _ & ->)%mkdir_node_inv ??. by apply resolve_update_apart. Qed.

Lemma not_file_preserved q t t' :
  (∀ data, resolve q t' = Some (File data) → resolve q t = Some (File data)) →
  is_file (resolve q t) = false → is_file (resolve q t') = false.
Proof.
  intros Hback Hq. destruct (resolve q t') as [[data|]|] eqn:Hq'; [|done..].
  by rewrite (Hback data eq_refl) in Hq.
Qed.

Lemma writable_root t :
  is_dir (Some t) = true → all_writable t = true → ∃ es, t = Dir true es.
Proof.
  destruct t as [|w es]; [done|]. intros _ [-> _]%all_writable_Dir. by eexists.
Qed.

(* Steps 2 to 4 on a tree in which nothing is read-only and none of the  *)
(* three paths is taken by a regular file.                               *)
Lemma directories_reset t1 :
  is_dir (Some t1) = true →
  all_writable t1 = true →
  is_file (resolve (path_of TARGET_DIR) t1) = false →
  is_file (resolve (path_of SQLX_BUILD_DIR) t1) = false →
  is_file (resolve (path_of SQLX_PREPARE_DIR) t1) = false →
  ∃ t2 t5,
    makedirs_node true (path_of TARGET_DIR) t1 = inr t2 ∧
    mkdir_node (path_of SQLX_BUILD_DIR)
      (rmtree_node (path_of SQLX_PREPARE_DIR)
         (rmtree_node (path_of SQLX_BUILD_DIR) t2).1).1 = inr t5 ∧
    resolve (path_of SQLX_BUILD_DIR) t5 = Some (Dir true ∅) ∧
    resolve (path_of SQLX_PREPARE_DIR) t5 = None ∧
    all_writable t5 = true ∧
    is_dir (Some t5) = true.
Proof.
  intros Hroot Hall Htarget Hbuild Hprep.
  assert (∃ t2, makedirs_node true (path_of TARGET_DIR) t1 = inr t2) as [t2 Hmk].
  { destruct (resolve (path_of TARGET_DIR) t1) as [[d|w es]|] eqn:Hres; [done| |].
    - exists t1. apply makedirs_node_existing. by rewrite Hres.
    - destruct (writable_root t1 Hroot Hall) as [es ->].
      revert Hres. rewrite path_of_target, makedirs_node_single. unfold mkdir_node.
      intros ->. by eexists. }
  exists t2.
  pose proof (makedirs_node_all_writable _ _ _ _ Hmk Hall) as Hall2.
  pose proof (makedirs_node_is_dir _ _ _ _ Hmk) as Hdir2.
  assert (is_file (resolve (path_of SQLX_BUILD_DIR) t2) = false) as Hbuild2.
  { eapply not_file_preserved; [|exact Hbuild].
    intros data. by eapply makedirs_node_no_new_files. }
  assert (is_file (resolve (path_of SQLX_PREPARE_DIR) t2) = false) as Hprep2.
  { eapply not_file_preserved; [|exact Hprep].
    intros data. by eapply makedirs_node_no_new_files. }
  set (t3 := (rmtree_node (path_of SQLX_BUILD_DIR) t2).1).
  destruct (rmtree_node_clears (path_of SQLX_BUILD_DIR) t2 Hall2 Hbuild2)
    as [Hgone3 Hall3]; [by rewrite path_of_build|]. fold t3 in Hgone3, Hall3.
  assert (is_dir (resolve (path_of TARGET_DIR) t3) = true) as Hdir3.
  { apply rmtree_node_keeps_dir; [apply build_not_prefix_target|done]. }
  assert (is_file (resolve (path_of SQLX_PREPARE_DIR) t3) = false) as Hprep3.
  { eapply not_file_preserved; [|exact Hprep2].
    intros data. apply rmtree_node_no_new_files. }
  set (t4 := (rmtree_node (path_of SQLX_PREPARE_DIR) t3).1).
  destruct (rmtree_node_clears (path_of SQLX_PREPARE_DIR) t3 Hall3 Hprep3)
    as [Hgone4 Hall4]; [by rewrite path_of_prepare|]. fold t4 in Hgone4, Hall4.
  assert (resolve (path_of SQLX_BUILD_DIR) t4 = None) as Hbuild4.
  { unfold t4. rewrite rmtree_node_apart;
      [done|apply prepare_not_prefix_build|apply build_not_prefix_prepare]. }
  assert (is_dir (resolve (path_of TARGET_DIR) t4) = true) as Hdir4.
  { apply rmtree_node_keeps_dir; [apply prepare_not_prefix_target|done]. }
  destruct (resolve (path_of TARGET_DIR) t4) as [[d|w es]|] eqn:Htarget4; [done| |done].
  pose proof (all_writable_resolve _ _ _ Hall4 Htarget4) as [-> _]%all_writable_Dir.
  pose proof (resolve_parent_build _ _ _ Htarget4) as Hpar.
  assert (mkdir_node (path_of SQLX_BUILD_DIR) t4 =
          inr (fs_update (λ _, Some (Dir true ∅)) (path_of SQLX_BUILD_DIR) t4)) as Hmkdir.
  { unfold mkdir_node. by rewrite Hbuild4, Hpar. }
  eexists. split_and!; [done|exact Hmkdir|..].
  - by eapply mkdir_node_resolve.
  - rewrite (mkdir_node_apart _ _ _ _ Hmkdir);
      [done|apply build_not_prefix_prepare|apply prepare_not_prefix_build].
  - by eapply mkdir_node_all_writable.
  - assert (is_Some (resolve (path_of SQLX_BUILD_DIR)
                       (fs_update (λ _, Some (Dir true ∅)) (path_of SQLX_BUILD_DIR) t4)))
      as [d Hd] by (rewrite (mkdir_node_resolve _ _ _ Hmkdir); by eexists).
    revert Hd. rewrite path_of_build.
    by destruct (fs_update _ _ t4).
Qed.

End paths.

(* Carry the value of one path along the operations of an inverted run. *)
Ltac frame_chain Hclean Hcheck Hmk Hmkdir Hcopy Hrm1 Hrm2 :=
  repeat match goal with
  | H : _ CARGO_CLEAN _ _ = Some _ |- _ => apply Hclean in H
  | H : _ CARGO_CHECK _ _ = Some _ |- _ => apply Hcheck in H
  | H : makedirs_node _ _ _ = inr _ |- _ => apply Hmk in H
  | H : mkdir_node _ _ = inr _ |- _ => apply Hmkdir in H
  | H : copytree_node _ _ _ = inr _ |- _ => apply Hcopy in H
  end;
  rewrite ?Hrm1, ?Hrm2 in *; congruence.

Section extras.
Variable cargo : tool.
Implicit Types (s : process) (q rel : path) (t : node).

(* The run up to the check, when the clean, the creation of the          *)
(* top-level directory and the creation of the cache directory succeed.  *)
Lemma exec_until_check s0 c t1 t2 t5 :
  cargo CARGO_CLEAN (environ s0) (fs s0) = Some (c, t1) →
  makedirs_node true (path_of TARGET_DIR) t1 = inr t2 →
  mkdir_node (path_of SQLX_BUILD_DIR)
    (rmtree_node (path_of SQLX_PREPARE_DIR)
       (rmtree_node (path_of SQLX_BUILD_DIR) t2).1).1 = inr t5 →
  exec (take 7 (script cargo)) s0 =
    (Ok tt, Process t5 (check_environ (environ s0))
              (spawned s0 ++ [(CARGO_CLEAN, environ s0)])).
Proof.
  intros Hclean Hmk Hmkdir. unfold script. cbn [take].
  rewrite exec_cons, subprocess_statement, Hclean.
  rewrite exec_cons. unfold os_makedirs_exist_ok at 1, lift_fs at 1.
  cbn [fs environ spawned]. rewrite Hmk.
  rewrite exec_cons. unfold shutil_rmtree_ignore_errors at 1. cbn [fs environ spawned].
  rewrite exec_cons. unfold shutil_rmtree_ignore_errors at 1. cbn [fs environ spawned].
  rewrite exec_cons. unfold os_mkdir at 1, lift_fs at 1.
  cbn [fs environ spawned]. rewrite Hmkdir.
  reflexivity.
Qed.

Lemma copytree_prepare_iff t :
  (∃ t', copytree_node (path_of SQLX_BUILD_DIR) (path_of SQLX_PREPARE_DIR) t = inr t') ↔
  is_dir (resolve (path_of SQLX_BUILD_DIR) t) = true ∧
  resolve (path_of SQLX_PREPARE_DIR) t = None ∧
  ∃ es, t = Dir true es.
Proof.
  unfold copytree_node.
  rewrite path_of_prepare, makedirs_node_single. unfold mkdir_node.
  destruct (resolve (path_of SQLX_BUILD_DIR) t) as [[d|w es]|] eqn:Hsrc.
  - split; [by intros [t' [=]]|by intros [[=] _]].
  - destruct t as [d|w' es'].
    { by rewrite path_of_build in Hsrc. }
    cbn [resolve resolve_parent andb].
    destruct (es' !! ".sqlx") as [c|] eqn:Hdst.
    + split; [by intros [t' [=]]|by intros (_ & [=] & _)].
    + destruct w'.
      * split; [|by eexists]. intros _. split_and!; [done..|by eexists].
      * split; [by intros [t' [=]]|]. by intros (_ & _ & es0 & [=]).
  - split; [by intros [t' [=]]|by intros [[=] _]].
Qed.

(** X1: when, after the clean, the working directory is a directory, no
    directory of the tree is read-only and none of [target], [target/sqlx]
    and [.sqlx] is a regular file, steps 2 to 5 all complete: the check is
    reached with an empty [target/sqlx], without [.sqlx], and with the two
    assignments made. *)
Theorem check_is_reached s0 c t1 :
  cargo CARGO_CLEAN (environ s0) (fs s0) = Some (c, t1) →
  is_dir (Some t1) = true →
  all_writable t1 = true →
  is_file (resolve (path_of TARGET_DIR) t1) = false →
  is_file (resolve (path_of SQLX_BUILD_DIR) t1) = false →
  is_file (resolve (path_of SQLX_PREPARE_DIR) t1) = false →
  ∃ s7,
    exec (take 7 (script cargo)) s0 = (Ok tt, s7) ∧
    resolve (path_of SQLX_BUILD_DIR) (fs s7) = Some (Dir true ∅) ∧
    resolve (path_of SQLX_PREPARE_DIR) (fs s7) = None ∧
    all_writable (fs s7) = true ∧
    environ s7 = check_environ (environ s0).
Proof.
  intros Hclean Hroot Hall Htarget Hbuild Hprep.
  destruct (directories_reset t1 Hroot Hall Htarget Hbuild Hprep)
    as (t2 & t5 & Hmk & Hmkdir & Hb & Hp & Hall5 & _).
  eexists. split; [by eapply exec_until_check|done].
Qed.

(** X2: the copy of step 7 completes exactly when [target/sqlx] is a
    directory, [.sqlx] does not exist and the working directory is a
    writable directory. *)
Theorem copy_succeeds_iff s :
  (∃ s', shutil_copytree SQLX_BUILD_DIR SQLX_PREPARE_DIR s = (Ok tt, s')) ↔
  is_dir (resolve (path_of SQLX_BUILD_DIR) (fs s)) = true ∧
  resolve (path_of SQLX_PREPARE_DIR) (fs s) = None ∧
  ∃ es, fs s = Dir true es.
Proof.
  rewrite <-copytree_prepare_iff. unfold shutil_copytree, lift_fs. split.
  - intros [s' Hs']. destruct (copytree_node _ _ (fs s)) as [e|t']; [done|]. by eexists.
  - intros [t' ->]. by eexists.
Qed.

(** X3: when the clean leaves a tree as in X1 and the check is well
    behaved (it exits, leaves [target/sqlx] a directory, does not create
    [.sqlx] and leaves the working directory writable), the script
    completes with exit status 0. *)
Theorem run_completes s0 c t1 :
  cargo CARGO_CLEAN (environ s0) (fs s0) = Some (c, t1) →
  is_dir (Some t1) = true →
  all_writable t1 = true →
  is_file (resolve (path_of TARGET_DIR) t1) = false →
  is_file (resolve (path_of SQLX_BUILD_DIR) t1) = false →
  is_file (resolve (path_of SQLX_PREPARE_DIR) t1) = false →
  well_behaved_check cargo (check_environ (environ s0)) →
  ∃ s, main cargo s0 = (Ok tt, s) ∧ exit_status (main cargo s0).1 = 0%Z.
Proof.
  intros Hclean Hroot Hall Htarget Hbuild Hprep Hcheck.
  destruct (directories_reset t1 Hroot Hall Htarget Hbuild Hprep)
    as (t2 & t5 & Hmk & Hmkdir & Hb & Hp & Hall5 & Hroot5).
  destruct (writable_root t5 Hroot5 Hall5) as [es ->].
  destruct (Hcheck es) as (c' & es' & Hrun & Hb' & Hp'); [by rewrite Hb|done|].
  destruct (proj2 (copytree_prepare_iff (Dir true es'))) as [t9 Hcopy].
  { split_and!; [done..|by eexists]. }
  pose proof (exec_until_check _ _ _ _ _ Hclean Hmk Hmkdir) as Hpre.
  assert (∃ s, main cargo s0 = (Ok tt, s)) as [s Hmain].
  { unfold main. rewrite <-script_from_check, exec_app, Hpre.
    rewrite exec_cons, subprocess_statement. cbn [fs environ spawned]. rewrite Hrun.
    rewrite exec_cons. unfold shutil_copytree, lift_fs. cbn [fs environ spawned].
    rewrite Hcopy. by eexists. }
  exists s. by rewrite Hmain.
Qed.

(** X4: when step 4 is reached, [target] is a directory, and the creation
    of [target/sqlx] has exactly three outcomes: FileExistsError when the
    removal of step 3 left [target/sqlx] in place, PermissionError when it
    is gone and [target] is read-only, success when it is gone and
    [target] is writable.  The parent is never missing. *)
Theorem cache_creation_outcomes s0 s4 :
  exec (take 4 (script cargo)) s0 = (Ok tt, s4) →
  ∃ w es,
    resolve (path_of TARGET_DIR) (fs s4) = Some (Dir w es) ∧
    ((is_Some (resolve (path_of SQLX_BUILD_DIR) (fs s4)) ∧
      os_mkdir SQLX_BUILD_DIR s4 = (Raise FileExistsError, s4)) ∨
     (resolve (path_of SQLX_BUILD_DIR) (fs s4) = None ∧ w = false ∧
      os_mkdir SQLX_BUILD_DIR s4 = (Raise PermissionError, s4)) ∨
     (resolve (path_of SQLX_BUILD_DIR) (fs s4) = None ∧ w = true ∧
      ∃ s5, os_mkdir SQLX_BUILD_DIR s4 = (Ok tt, s5))).
Proof.
  intros Hpre. exec_inv Hpre. subst s4. cbn [fs].
  match goal with H : makedirs_node _ _ _ = inr ?t |- _ =>
    pose proof (makedirs_node_is_dir _ _ _ _ H) as Hdir; set (t2 := t) in * end.
  set (t4 := (rmtree_node (path_of SQLX_PREPARE_DIR)
                (rmtree_node (path_of SQLX_BUILD_DIR) t2).1).1).
  assert (is_dir (resolve (path_of TARGET_DIR) t4) = true) as Hdir4.
  { apply rmtree_node_keeps_dir; [apply prepare_not_prefix_target|].
    apply rmtree_node_keeps_dir; [apply build_not_prefix_target|done]. }
  destruct (resolve (path_of TARGET_DIR) t4) as [[d|w es]|] eqn:Htarget; [done| |done].
  exists w, es. split; [done|].
  pose proof (resolve_parent_build _ _ _ Htarget) as Hpar.
  unfold os_mkdir, lift_fs, mkdir_node. cbn [fs environ spawned].
  destruct (resolve (path_of SQLX_BUILD_DIR) t4) as [d|] eqn:Hbuild.
  - left. split; [by eexists|done].
  - right. rewrite Hpar. destruct w; [right|left]; split_and!; [done..|by eexists| | |];
      done.
Qed.

(** X5: when, after step 2, [target/sqlx] is a regular file, the removal
    of step 3 leaves it there and the script stops at step 4 with
    FileExistsError, before any assignment to the environment and without
    spawning the check. *)
Theorem cache_path_taken_by_file s0 s2 :
  exec (take 2 (script cargo)) s0 = (Ok tt, s2) →
  is_file (resolve (path_of SQLX_BUILD_DIR) (fs s2)) = true →
  ∃ s4,
    main cargo s0 = (Raise FileExistsError, s4) ∧
    is_file (resolve (path_of SQLX_BUILD_DIR) (fs s4)) = true ∧
    environ s4 = environ s2 ∧
    spawned s4 = spawned s2.
Proof.
  intros Hpre Hfile.
  destruct (resolve (path_of SQLX_BUILD_DIR) (fs s2)) as [[data|]|] eqn:Hres; [|done..].
  set (t4 := (rmtree_node (path_of SQLX_PREPARE_DIR)
                (rmtree_node (path_of SQLX_BUILD_DIR) (fs s2)).1).1).
  assert (resolve (path_of SQLX_BUILD_DIR) t4 = Some (File data)) as Hres4.
  { apply rmtree_node_keeps; [apply prepare_not_prefix_build|].
    unfold rmtree_node. by rewrite Hres. }
  assert (exec (take 4 (script cargo)) s0 =
          (Ok tt, Process t4 (environ s2) (spawned s2))) as Hpre4.
  { change (take 4 (script cargo))
      with (take 2 (script cargo) ++
            [shutil_rmtree_ignore_errors SQLX_BUILD_DIR;
             shutil_rmtree_ignore_errors SQLX_PREPARE_DIR]).
    by rewrite exec_app, Hpre. }
  exists (Process t4 (environ s2) (spawned s2)). cbn [fs environ spawned].
  split_and!; [|by rewrite Hres4|done..].
  unfold main. rewrite <-script_from_mkdir, exec_app, Hpre4, exec_cons.
  unfold os_mkdir, lift_fs, mkdir_node. cbn [fs]. by rewrite Hres4.
Qed.

(** X6: when, after the clean, [target] is a regular file, the script
    stops at step 2 with FileExistsError in the state the clean left:
    nothing has been removed. *)
Theorem target_taken_by_file s0 s1 :
  exec (take 1 (script cargo)) s0 = (Ok tt, s1) →
  is_file (resolve (path_of TARGET_DIR) (fs s1)) = true →
  main cargo s0 = (Raise FileExistsError, s1).
Proof.
  intros Hpre Hfile. unfold main.
  rewrite <-script_from_makedirs, exec_app, Hpre, exec_cons.
  unfold os_makedirs_exist_ok, lift_fs. by rewrite makedirs_node_on_file.
Qed.

(** X7: every path outside [target] and [.sqlx] resolves after the run
    (however it ends) to what it resolved to before, provided the clean
    and the check, as the script invokes them, leave it alone: the
    script's own operations create, change and remove nothing there. *)
Theorem nothing_else_is_touched s0 q :
  q ≠ [] →
  ¬ path_of TARGET_DIR `prefix_of` q →
  ¬ path_of SQLX_PREPARE_DIR `prefix_of` q →
  (∀ t c t', cargo CARGO_CLEAN (environ s0) t = Some (c, t') →
             resolve q t' = resolve q t) →
  (∀ t c t', cargo CARGO_CHECK (check_environ (environ s0)) t = Some (c, t') →
             resolve q t' = resolve q t) →
  resolve q (fs (main cargo s0).2) = resolve q (fs s0).
Proof.
  intros Hq Htarget Hprep Hclean Hcheck.
  destruct (outside_target q Hq Htarget) as (Htarget' & Hbuild & Hbuild').
  pose proof (outside_prepare q Hq Hprep) as Hprep'.
  pose proof (λ t, rmtree_node_apart (path_of SQLX_BUILD_DIR) t q Hbuild Hbuild') as Hrm1.
  pose proof (λ t, rmtree_node_apart (path_of SQLX_PREPARE_DIR) t q Hprep Hprep') as Hrm2.
  assert (∀ t t', makedirs_node true (path_of TARGET_DIR) t = inr t' →
                  resolve q t' = resolve q t) as Hmk.
  { intros t t'. rewrite path_of_target, makedirs_node_single.
    destruct (mkdir_node ["target"] t) as [e|t2] eqn:Hmkdir.
    - destruct (true && is_dir _); [|done]. by intros [= <-].
    - intros [= <-]. eapply mkdir_node_apart; [done|..]; by rewrite <-path_of_target. }
  assert (∀ t t', mkdir_node (path_of SQLX_BUILD_DIR) t = inr t' →
                  resolve q t' = resolve q t) as Hmkdir.
  { intros t t' H. by eapply mkdir_node_apart. }
  assert (∀ t t', copytree_node (path_of SQLX_BUILD_DIR) (path_of SQLX_PREPARE_DIR) t
                    = inr t' → resolve q t' = resolve q t) as Hcopy.
  { intros t t'. rewrite path_of_prepare. intros H.
    eapply copytree_node_outside; [done..|]. by rewrite <-path_of_prepare. }
  unfold main.
  destruct (exec_outcome (script cargo) s0) as [[s' Hok]|(k & e & s' & Habort)].
  - rewrite Hok. cbn [snd]. exec_inv Hok. subst s'. cbn [fs].
    frame_chain Hclean Hcheck Hmk Hmkdir Hcopy Hrm1 Hrm2.
  - rewrite (aborts_at_exec _ _ _ _ _ Habort). cbn [snd].
    destruct Habort as (m & sk & Hk & Hpre & Hraise).
    destruct k as [|[|[|[|[|[|[|[|[|k]]]]]]]]]; [..|done];
      injection Hk as <-; try discriminate Hraise;
      first [apply subprocess_Raise_fs in Hraise; rewrite Hraise
            |apply lift_fs_Raise in Hraise as (_ & ->)];
      exec_inv Hpre; subst sk; cbn [fs];
      frame_chain Hclean Hcheck Hmk Hmkdir Hcopy Hrm1 Hrm2.
Qed.

(** X8: every environment variable other than [SQLX_OFFLINE] and
    [SQLX_OFFLINE_DIR] reaches both subprocesses, and is left in the
    process environment, exactly as the script inherited it. *)
Theorem other_variables_pass_through s0 (k : string) :
  k ≠ "SQLX_OFFLINE" → k ≠ "SQLX_OFFLINE_DIR" →
  environ (main cargo s0).2 !! k = environ s0 !! k ∧
  ∃ calls,
    spawned (main cargo s0).2 = spawned s0 ++ calls ∧
    ∀ argv env, (argv, env) ∈ calls → env !! k = environ s0 !! k.
Proof.
  intros Hk1 Hk2.
  assert (check_environ (environ s0) !! k = environ s0 !! k) as Hsame.
  { unfold check_environ. by rewrite !lookup_insert_ne. }
  destruct (exec_outcome (take 7 (script cargo)) s0)
    as [[s7 Hpre]|(i & e & s' & Habort)].
  - pose proof (before_check _ _ _ Hpre) as (Henv & Hlog & _).
    pose proof (main_from_check _ _ _ Hpre) as [Hspawn Hend].
    split; [by rewrite Hend, Henv|].
    exists [(CARGO_CLEAN, environ s0); (CARGO_CHECK, check_environ (environ s0))].
    split; [by rewrite Hspawn, Hlog, <-app_assoc, Henv|].
    intros argv env [[= _ ->]|[[= _ ->]|[]%elem_of_nil]%elem_of_cons]%elem_of_cons; done.
  - apply main_stopped_before_check in Habort as (-> & Hlog & Henv). cbn [snd].
    split; [by rewrite Henv|].
    exists [(CARGO_CLEAN, environ s0)]. split; [done|].
    by intros argv env [[= _ ->]|[]%elem_of_nil]%elem_of_cons.
Qed.

End extras.

Section more_extras.
Variable cargo : tool.
Implicit Types (s : process) (q rel : path) (t : node).

(** X9: when [target] already is a directory, step 2
    ([os.makedirs(TARGET_DIR, exist_ok=True)]) completes and changes
    nothing: the directory and everything in it are left as they are. *)
Theorem makedirs_keeps_existing_target s :
  is_dir (resolve (path_of TARGET_DIR) (fs s)) = true →
  os_makedirs_exist_ok TARGET_DIR s = (Ok tt, s).
Proof.
  intros Hdir. unfold os_makedirs_exist_ok, lift_fs.
  rewrite makedirs_node_existing by done. by destruct s.
Qed.

(** X10: when step 2 ([os.makedirs(TARGET_DIR, exist_ok=True)]) completes,
    [target] is a directory, the regular files of the tree are exactly
    those it had before, with the same contents, and running the step
    again completes without any change. *)
Theorem makedirs_target_is_idempotent s s' :
  os_makedirs_exist_ok TARGET_DIR s = (Ok tt, s') →
  is_dir (resolve (path_of TARGET_DIR) (fs s')) = true ∧
  (∀ q data, resolve q (fs s') = Some (File data) ↔
             resolve q (fs s) = Some (File data)) ∧
  os_makedirs_exist_ok TARGET_DIR s' = (Ok tt, s').
Proof.
  intros (t' & Hmk & ->)%makedirs_Ok. cbn [fs].
  pose proof (makedirs_node_is_dir _ _ _ _ Hmk) as Hdir.
  split_and!; [done| |].
  - intros q data. split.
    + by eapply makedirs_node_no_new_files.
    + by eapply makedirs_node_keeps.
  - unfold os_makedirs_exist_ok, lift_fs. cbn [fs environ spawned].
    by rewrite makedirs_node_existing.
Qed.

(** X11: the removal with [ignore_errors=True] only deletes: a regular
    file found anywhere in the tree afterwards was there before, with the
    same contents. *)
Theorem removal_only_deletes name s q data :
  resolve q (fs (shutil_rmtree_ignore_errors name s).2) = Some (File data) →
  resolve q (fs s) = Some (File data).
Proof. apply rmtree_node_no_new_files. Qed.

(** X12: steps 2 to 4 create no regular file and change no file's
    contents: a regular file present when step 4 has completed was left
    there, with the same contents, by the clean. *)
Theorem directory_steps_create_no_file s0 s5 q data :
  exec (take 5 (script cargo)) s0 = (Ok tt, s5) →
  resolve q (fs s5) = Some (File data) →
  ∃ c t1,
    cargo CARGO_CLEAN (environ s0) (fs s0) = Some (c, t1) ∧
    resolve q t1 = Some (File data).
Proof.
  intros Hpre Hq. exec_inv Hpre. subst s5. cbn [fs] in Hq.
  do 2 eexists. split; [done|].
  eapply makedirs_node_no_new_files; [done|].
  eapply rmtree_node_no_new_files, rmtree_node_no_new_files.
  by eapply mkdir_node_no_new_files.
Qed.

End more_extras.

(* ===================================================================== *)
(* These properties at concrete workspaces                               *)
(* ===================================================================== *)

Lemma stub_cargo_clean_outside wipe queries c1 c2 env q t c t' :
  q ≠ [] → ¬ path_of TARGET_DIR `prefix_of` q →
  stub_cargo wipe queries c1 c2 CARGO_CLEAN env t = Some (c, t') →
  resolve q t' = resolve q t.
Proof.
  intros Hq Hout. unfold stub_cargo. rewrite decide_True by done.
  destruct (outside_target q Hq Hout) as (Hout' & _ & _).
  remember (path_of TARGET_DIR) as p eqn:Hp.
  destruct wipe; intros [= _ <-]; [|done]. by apply resolve_update_apart.
Qed.

Lemma stub_cargo_check_outside wipe queries c1 c2 env q t c t' :
  env !! "SQLX_OFFLINE" = Some "false" →
  env !! "SQLX_OFFLINE_DIR" = Some SQLX_BUILD_DIR →
  q ≠ [] → ¬ path_of TARGET_DIR `prefix_of` q →
  stub_cargo wipe queries c1 c2 CARGO_CHECK env t = Some (c, t') →
  resolve q t' = resolve q t.
Proof.
  intros Hoff Hdir Hq Hout. rewrite (stub_cargo_check _ _ _ _ _ _ Hoff Hdir).
  destruct (outside_target q Hq Hout) as (_ & Hb & Hb').
  remember (path_of SQLX_BUILD_DIR) as p eqn:Hp.
  destruct (resolve p t) as [[d|w es]|]; intros [= _ <-]; [done| |done].
  by apply resolve_update_apart.
Qed.

Lemma stub_cargo_well_behaved wipe queries c1 c2 env :
  env !! "SQLX_OFFLINE" = Some "false" →
  env !! "SQLX_OFFLINE_DIR" = Some SQLX_BUILD_DIR →
  well_behaved_check (stub_cargo wipe queries c1 c2) env.
Proof.
  intros Hoff Hdir es Hbuild Hprep.
  rewrite (stub_cargo_check _ _ _ _ _ _ Hoff Hdir).
  destruct (resolve (path_of SQLX_BUILD_DIR) (Dir true es)) as [[d|w es0]|] eqn:Hres;
    [done| |done].
  destruct (resolve_parent_is_Some (path_of SQLX_BUILD_DIR) (Dir true es)) as [w' Hpar];
    [done|by eexists|].
  exists c2, (alter (fs_update (λ _, Some (Dir w queries)) ["sqlx"]) "target" es).
  change (Dir true (alter (fs_update (λ _, Some (Dir w queries)) ["sqlx"]) "target" es))
    with (fs_update (λ _, Some (Dir w queries)) (path_of SQLX_BUILD_DIR) (Dir true es)).
  split_and!; [done| |].
  - by rewrite (resolve_update_eq _ _ _ _ Hpar).
  - rewrite resolve_update_apart;
      [done|apply build_not_prefix_prepare|apply prepare_not_prefix_build].
Qed.

Lemma check_is_reached_witness :
  gentle_cargo CARGO_CLEAN (environ (start stale_workspace)) (fs (start stale_workspace)) =
    Some (0%Z, stale_workspace) ∧
  all_writable stale_workspace = true ∧
  ∃ s7,
    exec (take 7 (script gentle_cargo)) (start stale_workspace) = (Ok tt, s7) ∧
    resolve (path_of SQLX_BUILD_DIR) (fs s7) = Some (Dir true ∅) ∧
    resolve (path_of SQLX_PREPARE_DIR) (fs s7) = None ∧
    all_writable (fs s7) = true ∧
    environ s7 = check_environ (environ (start stale_workspace)).
Proof.
  assert (gentle_cargo CARGO_CLEAN (environ (start stale_workspace))
            (fs (start stale_workspace)) = Some (0%Z, stale_workspace))
    as Hclean by (vm_compute; reflexivity).
  assert (all_writable stale_workspace = true) as Hall by (vm_compute; reflexivity).
  split; [exact Hclean|]. split; [exact Hall|].
  apply (check_is_reached gentle_cargo (start stale_workspace) 0%Z stale_workspace
           Hclean); [reflexivity|exact Hall|vm_compute; reflexivity..].
Defined.

Lemma run_completes_witness :
  gentle_cargo CARGO_CLEAN (environ (start stale_workspace)) (fs (start stale_workspace)) =
    Some (0%Z, stale_workspace) ∧
  well_behaved_check gentle_cargo (check_environ (environ (start stale_workspace))) ∧
  ∃ s, main gentle_cargo (start stale_workspace) = (Ok tt, s) ∧
       exit_status (main gentle_cargo (start stale_workspace)).1 = 0%Z.
Proof.
  assert (gentle_cargo CARGO_CLEAN (environ (start stale_workspace))
            (fs (start stale_workspace)) = Some (0%Z, stale_workspace))
    as Hclean by (vm_compute; reflexivity).
  assert (well_behaved_check gentle_cargo (check_environ (environ (start stale_workspace))))
    as Hcheck.
  { apply stub_cargo_well_behaved;
      [apply check_environ_offline|apply check_environ_offline_dir]. }
  split; [exact Hclean|]. split; [exact Hcheck|].
  apply (run_completes gentle_cargo (start stale_workspace) 0%Z stale_workspace Hclean);
    [reflexivity|vm_compute; reflexivity..|exact Hcheck].
Defined.

Lemma cache_creation_outcomes_witness :
  exec (take 4 (script gentle_cargo)) (start readonly_target_workspace) =
    (Ok tt, (exec (take 4 (script gentle_cargo)) (start readonly_target_workspace)).2) ∧
  ∃ w es,
    resolve (path_of TARGET_DIR)
      (fs (exec (take 4 (script gentle_cargo)) (start readonly_target_workspace)).2) =
      Some (Dir w es).
Proof.
  assert (exec (take 4 (script gentle_cargo)) (start readonly_target_workspace) =
          (Ok tt, (exec (take 4 (script gentle_cargo))
                     (start readonly_target_workspace)).2))
    as Hrun by (vm_compute; reflexivity).
  split; [exact Hrun|].
  destruct (cache_creation_outcomes gentle_cargo (start readonly_target_workspace) _ Hrun)
    as (w & es & Htarget & _).
  exists w, es. exact Htarget.
Defined.

Lemma cache_path_taken_by_file_witness :
  exec (take 2 (script gentle_cargo)) (start file_cache_workspace) =
    (Ok tt, (exec (take 2 (script gentle_cargo)) (start file_cache_workspace)).2) ∧
  is_file (resolve (path_of SQLX_BUILD_DIR)
             (fs (exec (take 2 (script gentle_cargo)) (start file_cache_workspace)).2)) =
    true ∧
  ∃ s4, main gentle_cargo (start file_cache_workspace) = (Raise FileExistsError, s4).
Proof.
  assert (exec (take 2 (script gentle_cargo)) (start file_cache_workspace) =
          (Ok tt, (exec (take 2 (script gentle_cargo)) (start file_cache_workspace)).2))
    as Hrun by (vm_compute; reflexivity).
  assert (is_file (resolve (path_of SQLX_BUILD_DIR)
            (fs (exec (take 2 (script gentle_cargo)) (start file_cache_workspace)).2)) =
          true) as Hfile by (vm_compute; reflexivity).
  split; [exact Hrun|]. split; [exact Hfile|].
  destruct (cache_path_taken_by_file gentle_cargo (start file_cache_workspace) _ Hrun Hfile)
    as (s4 & Hmain & _).
  exists s4. exact Hmain.
Defined.

Lemma target_taken_by_file_witness :
  exec (take 1 (script gentle_cargo)) (start blocked_workspace) =
    (Ok tt, (exec (take 1 (script gentle_cargo)) (start blocked_workspace)).2) ∧
  is_file (resolve (path_of TARGET_DIR)
             (fs (exec (take 1 (script gentle_cargo)) (start blocked_workspace)).2)) =
    true ∧
  main gentle_cargo (start blocked_workspace) =
    (Raise FileExistsError,
     (exec (take 1 (script gentle_cargo)) (start blocked_workspace)).2).
Proof.
  assert (exec (take 1 (script gentle_cargo)) (start blocked_workspace) =
          (Ok tt, (exec (take 1 (script gentle_cargo)) (start blocked_workspace)).2))
    as Hrun by (vm_compute; reflexivity).
  assert (is_file (resolve (path_of TARGET_DIR)
            (fs (exec (take 1 (script gentle_cargo)) (start blocked_workspace)).2)) =
          true) as Hfile by (vm_compute; reflexivity).
  split; [exact Hrun|]. split; [exact Hfile|].
  exact (target_taken_by_file gentle_cargo (start blocked_workspace) _ Hrun Hfile).
Defined.

Lemma nothing_else_is_touched_witness :
  resolve ["Cargo.toml"] (fs (main demo_cargo (start stale_workspace)).2) =
  resolve ["Cargo.toml"] (fs (start stale_workspace)).
Proof.
  assert (["Cargo.toml"] ≠ @nil string) as Hq by discriminate.
  assert (¬ path_of TARGET_DIR `prefix_of` ["Cargo.toml"]) as Htarget
    by (rewrite path_of_target; by apply not_prefix_head).
  assert (¬ path_of SQLX_PREPARE_DIR `prefix_of` ["Cargo.toml"]) as Hprep
    by (rewrite path_of_prepare; by apply not_prefix_head).
  apply (nothing_else_is_touched demo_cargo (start stale_workspace) ["Cargo.toml"]
           Hq Htarget Hprep).
  - intros t c t'. by apply stub_cargo_clean_outside.
  - intros t c t'. apply stub_cargo_check_outside;
      [apply check_environ_offline|apply check_environ_offline_dir|done..].
Defined.

Lemma other_variables_pass_through_witness :
  environ (main demo_cargo (start stale_workspace)).2 !! "PATH" =
    environ (start stale_workspace) !! "PATH" ∧
  ∃ calls,
    spawned (main demo_cargo (start stale_workspace)).2 =
      spawned (start stale_workspace) ++ calls ∧
    ∀ argv env, (argv, env) ∈ calls →
                env !! "PATH" = environ (start stale_workspace) !! "PATH".
Proof.
  apply (other_variables_pass_through demo_cargo (start stale_workspace) "PATH");
    discriminate.
Defined.

Lemma makedirs_keeps_existing_target_witness :
  is_dir (resolve (path_of TARGET_DIR) (fs (start stale_workspace))) = true ∧
  os_makedirs_exist_ok TARGET_DIR (start stale_workspace) = (Ok tt, start stale_workspace).
Proof.
  assert (is_dir (resolve (path_of TARGET_DIR) (fs (start stale_workspace))) = true)
    as Hdir by (vm_compute; reflexivity).
  split; [exact Hdir|].
  exact (makedirs_keeps_existing_target (start stale_workspace) Hdir).
Defined.

Lemma makedirs_target_is_idempotent_witness :
  os_makedirs_exist_ok TARGET_DIR (start fresh_workspace) =
    (Ok tt, (os_makedirs_exist_ok TARGET_DIR (start fresh_workspace)).2) ∧
  os_makedirs_exist_ok TARGET_DIR (os_makedirs_exist_ok TARGET_DIR (start fresh_workspace)).2 =
    (Ok tt, (os_makedirs_exist_ok TARGET_DIR (start fresh_workspace)).2).
Proof.
  assert (os_makedirs_exist_ok TARGET_DIR (start fresh_workspace) =
          (Ok tt, (os_makedirs_exist_ok TARGET_DIR (start fresh_workspace)).2))
    as Hrun by (vm_compute; reflexivity).
  split; [exact Hrun|].
  exact (proj2 (proj2 (makedirs_target_is_idempotent (start fresh_workspace) _ Hrun))).
Defined.

Lemma removal_only_deletes_witness :
  resolve [".sqlx"; "keep"; "stale.json"]
    (fs (shutil_rmtree_ignore_errors SQLX_PREPARE_DIR (start locked_workspace)).2) =
    Some (File json_a) ∧
  resolve [".sqlx"; "keep"; "stale.json"] (fs (start locked_workspace)) =
    Some (File json_a).
Proof.
  assert (resolve [".sqlx"; "keep"; "stale.json"]
            (fs (shutil_rmtree_ignore_errors SQLX_PREPARE_DIR (start locked_workspace)).2) =
          Some (File json_a)) as Hleft by (vm_compute; reflexivity).
  split; [exact Hleft|].
  exact (removal_only_deletes SQLX_PREPARE_DIR (start locked_workspace) _ _ Hleft).
Defined.

Lemma directory_steps_create_no_file_witness :
  exec (take 5 (script gentle_cargo)) (start stale_workspace) =
    (Ok tt, (exec (take 5 (script gentle_cargo)) (start stale_workspace)).2) ∧
  resolve ["target"; "notes.txt"]
    (fs (exec (take 5 (script gentle_cargo)) (start stale_workspace)).2) =
    Some (File json_b) ∧
  ∃ c t1,
    gentle_cargo CARGO_CLEAN (environ (start stale_workspace))
      (fs (start stale_workspace)) = Some (c, t1) ∧
    resolve ["target"; "notes.txt"] t1 = Some (File json_b).
Proof.
  assert (exec (take 5 (script gentle_cargo)) (start stale_workspace) =
          (Ok tt, (exec (take 5 (script gentle_cargo)) (start stale_workspace)).2))
    as Hrun by (vm_compute; reflexivity).
  assert (resolve ["target"; "notes.txt"]
            (fs (exec (take 5 (script gentle_cargo)) (start stale_workspace)).2) =
          Some (File json_b)) as Hfile by (vm_compute; reflexivity).
  split; [exact Hrun|]. split; [exact Hfile|].
  exact (directory_steps_create_no_file gentle_cargo (start stale_workspace) _ _ _
           Hrun Hfile).
Defined.
